(** * To-do list service: storage layer and HTTP handlers

    A shallow embedding of [app/database.py] (the data-access layer over
    the single SQLite table [tasks]) and of the JSON handlers of
    [app/app.py], followed by the properties of the CRUD contract.

    Conventions.
    - A Python [str] is a [string]; every character stands for the code
      point of the same number (the range U+0000..U+00FF).
    - A decoded JSON value, and more generally any Python value that
      reaches the code, is a [pyval].  JSON floats are left out.
    - The database file is a value of type [db]; every function that
      opens a connection is a state transformer that may raise. *)

From Stdlib Require Import ZArith String Ascii List Lia Permutation Sorted.
From stdpp Require Import base tactics list strings sorting pretty.

Open Scope string_scope.
Open Scope Z_scope.

Set Warnings "-register-all".

(** ** Python values *)

Inductive pyval : Type :=
  | PNone
  | PBool (b : bool)
  | PInt (z : Z)
  | PStr (s : string)
  | PList (l : list pyval)
  | PDict (d : list (string * pyval)).

(** The exceptions that the modelled code can meet. *)
Inductive exn : Type :=
  | AttributeError     (* a method looked up on a value that lacks it *)
  | OverflowError      (* an int outside the 64-bit range bound to SQLite *)
  | InterfaceError     (* a value of a type sqlite3 cannot bind *)
  | IntegrityError     (* NOT NULL constraint failed *)
  | OperationalError.  (* the engine cannot allocate a new rowid *)

Inductive outcome (A : Type) : Type :=
  | Ok (a : A)
  | Raise (e : exn).
Arguments Ok {A} a.
Arguments Raise {A} e.

(** [bool(v)]: Python truthiness, as used by [if not data] and
    [if not title]. *)
Definition truthy (v : pyval) : bool :=
  match v with
  | PNone => false
  | PBool b => b
  | PInt z => negb (z =? 0)
  | PStr s => negb (String.eqb s "")
  | PList l => match l with [] => false | _ :: _ => true end
  | PDict d => match d with [] => false | _ :: _ => true end
  end.

Definition is_none (v : pyval) : bool :=
  match v with PNone => true | _ => false end.

(** ** Strings: [str.strip] *)

(** [str.isspace] on one character, for the code points below 256. *)
Definition isspace (c : ascii) : bool :=
  let n := N_of_ascii c in
  (((9 <=? n) && (n <=? 13)) || ((28 <=? n) && (n <=? 32))
   || (n =? 133) || (n =? 160))%N.

Fixpoint lstrip (s : string) : string :=
  match s with
  | EmptyString => EmptyString
  | String c s' => if isspace c then lstrip s' else s
  end.

Fixpoint rstrip (s : string) : string :=
  match s with
  | EmptyString => EmptyString
  | String c s' =>
      match rstrip s' with
      | EmptyString => if isspace c then EmptyString else String c EmptyString
      | r => String c r
      end
  end.

Definition strip (s : string) : string := rstrip (lstrip s).

(** [v.strip()]: only a [str] has the method. *)
Definition py_strip (v : pyval) : outcome string :=
  match v with
  | PStr s => Ok (strip s)
  | _ => Raise AttributeError
  end.

(** ** Dictionaries: [data.get(key, default)] *)

Fixpoint dict_get (d : list (string * pyval)) (k : string) : option pyval :=
  match d with
  | [] => None
  | (k', v) :: d' => if String.eqb k' k then Some v else dict_get d' k
  end.

(** [d.get(k, default)] on a dictionary. *)
Definition dict_get_or (d : list (string * pyval)) (k : string)
    (default : pyval) : pyval :=
  match dict_get d k with
  | Some v => v
  | None => default
  end.

(** [data.get(k, default)] on any value: only a [dict] has the method. *)
Definition py_get (data : pyval) (k : string) (default : pyval)
  : outcome pyval :=
  match data with
  | PDict d => Ok (dict_get_or d k default)
  | _ => Raise AttributeError
  end.

Definition valid_statuses : list string :=
  ["pending"; "in_progress"; "completed"].

(** [v in l] for a list of strings [l]: only an equal [str] is a member. *)
Definition py_in (v : pyval) (l : list string) : bool :=
  match v with
  | PStr s => existsb (String.eqb s) l
  | _ => false
  end.

(** ** The table [tasks]

    [CREATE TABLE tasks (id INTEGER PRIMARY KEY AUTOINCREMENT,
       title TEXT NOT NULL, description TEXT, due_date TEXT,
       status TEXT NOT NULL DEFAULT 'pending')].
    A row is also the dictionary [dict(row)] handed to the callers. *)

Record task : Type := mk_task {
  id : Z;
  title : string;
  description : option string;
  due_date : option string;
  status : string
}.

(** The database file: the rows of [tasks] in insertion order, and the
    counter that AUTOINCREMENT keeps in [sqlite_sequence] (the largest
    rowid ever given out). *)
Record db : Type := mk_db {
  tasks : list task;
  seq : Z
}.

Definition empty_db : db := {| tasks := []; seq := 0 |}.

(** [init_db]: CREATE TABLE IF NOT EXISTS.  [None] is a file without
    the table. *)
Definition init_db (file : option db) : db :=
  match file with
  | None => empty_db
  | Some d => d
  end.

(** ** Binding parameters and storing them *)

Inductive sqlval : Type :=
  | SqlNull
  | SqlInteger (z : Z)
  | SqlText (s : string).

Definition max_rowid : Z := 9223372036854775807.

Definition int64_range (z : Z) : bool :=
  (- max_rowid - 1 <=? z) && (z <=? max_rowid).

(** How the [sqlite3] module binds a Python value to a [?]. *)
Definition bind_param (v : pyval) : outcome sqlval :=
  match v with
  | PNone => Ok SqlNull
  | PBool b => Ok (SqlInteger (if b then 1 else 0))
  | PInt z => if int64_range z then Ok (SqlInteger z) else Raise OverflowError
  | PStr s => Ok (SqlText s)
  | PList _ => Raise InterfaceError
  | PDict _ => Raise InterfaceError
  end.

(** TEXT affinity: a column declared TEXT keeps NULL and text, and turns
    a number into its decimal text. *)
Definition text_affinity (v : sqlval) : option string :=
  match v with
  | SqlNull => None
  | SqlInteger z => Some (pretty z)
  | SqlText s => Some s
  end.

(** ** Connections *)

(** Code running inside [with get_db_connection() as conn]. *)
Definition M (A : Type) : Type := db -> outcome A * db.

Definition ret {A} (a : A) : M A := fun d => (Ok a, d).
Definition raise {A} (e : exn) : M A := fun d => (Raise e, d).
Definition lift {A} (o : outcome A) : M A := fun d => (o, d).
Definition bind {A B} (m : M A) (k : A -> M B) : M B :=
  fun d =>
    match m d with
    | (Ok a, d') => k a d'
    | (Raise e, d') => (Raise e, d')
    end.

Notation "x <- m ;; k" := (bind m (fun x => k))
  (at level 63, m at next level, right associativity).

(** [get_db_connection]: commit when the block ends normally (also by
    [return]), roll back and re-raise when it raises. *)
Definition get_db_connection {A} (block : M A) : M A :=
  fun d =>
    match block d with
    | (Ok a, d') => (Ok a, d')
    | (Raise e, _) => (Raise e, d)
    end.

(** ** Statements *)

Inductive column : Type := ColTitle | ColDescription | ColDueDate | ColStatus.

Definition largest_rowid (l : list task) : Z :=
  foldr (fun r m => Z.max (id r) m) 0 l.

(** The rowid AUTOINCREMENT picks: one more than the largest rowid that
    was ever in the table. *)
Definition next_rowid (d : db) : Z :=
  Z.max (seq d) (largest_rowid (tasks d)) + 1.

(** [INSERT INTO tasks (title, description, due_date, status)
     VALUES (?, ?, ?, ?)]; the result is [cursor.lastrowid]. *)
Definition exec_insert (p_title p_description p_due_date p_status : pyval)
  : M Z :=
  v_title <- lift (bind_param p_title) ;;
  v_description <- lift (bind_param p_description) ;;
  v_due_date <- lift (bind_param p_due_date) ;;
  v_status <- lift (bind_param p_status) ;;
  fun d =>
    if max_rowid <? next_rowid d then (Raise OperationalError, d)
    else
      match text_affinity v_title, text_affinity v_status with
      | Some t, Some s =>
          let r := {| id := next_rowid d; title := t;
                      description := text_affinity v_description;
                      due_date := text_affinity v_due_date;
                      status := s |} in
          (Ok (next_rowid d),
           {| tasks := tasks d ++ [r]; seq := next_rowid d |})
      | _, _ => (Raise IntegrityError, d)
      end.

(** The order of [ORDER BY id DESC]. *)
Definition id_desc (a b : task) : Prop := id b <= id a.

#[global] Instance id_desc_dec : RelDecision id_desc.
Proof. intros a b. unfold id_desc. apply _. Defined.

(** [SELECT * FROM tasks ORDER BY id DESC] and [fetchall]. *)
Definition exec_select_all : M (list task) :=
  fun d => (Ok (merge_sort id_desc (tasks d)), d).

Definition has_id (i : Z) (r : task) : bool := id r =? i.

(** [SELECT ... FROM tasks WHERE id = ?] and [fetchone]. *)
Definition exec_select_by_id (task_id : Z) : M (option task) :=
  _ <- lift (bind_param (PInt task_id)) ;;
  fun d => (Ok (find (has_id task_id) (tasks d)), d).

(** One [col = ?] of an UPDATE applied to a row. *)
Definition assign (c : column) (v : option string) (r : task)
  : outcome task :=
  match c, v with
  | ColTitle, Some t =>
      Ok {| id := id r; title := t; description := description r;
            due_date := due_date r; status := status r |}
  | ColTitle, None => Raise IntegrityError
  | ColDescription, _ =>
      Ok {| id := id r; title := title r; description := v;
            due_date := due_date r; status := status r |}
  | ColDueDate, _ =>
      Ok {| id := id r; title := title r; description := description r;
            due_date := v; status := status r |}
  | ColStatus, Some s =>
      Ok {| id := id r; title := title r; description := description r;
            due_date := due_date r; status := s |}
  | ColStatus, None => Raise IntegrityError
  end.

Fixpoint bind_params (params : list pyval) : outcome (list sqlval) :=
  match params with
  | [] => Ok []
  | p :: ps =>
      match bind_param p with
      | Raise e => Raise e
      | Ok v =>
          match bind_params ps with
          | Raise e => Raise e
          | Ok vs => Ok (v :: vs)
          end
      end
  end.

Fixpoint assign_all (updates : list column) (vals : list sqlval) (r : task)
  : outcome task :=
  match updates, vals with
  | c :: cs, v :: vs =>
      match assign c (text_affinity v) r with
      | Raise e => Raise e
      | Ok r' => assign_all cs vs r'
      end
  | _, _ => Ok r
  end.

Fixpoint update_rows (updates : list column) (vals : list sqlval)
    (task_id : Z) (rows : list task) : outcome (list task) :=
  match rows with
  | [] => Ok []
  | r :: rs =>
      match (if has_id task_id r then assign_all updates vals r else Ok r) with
      | Raise e => Raise e
      | Ok r' =>
          match update_rows updates vals task_id rs with
          | Raise e => Raise e
          | Ok rs' => Ok (r' :: rs')
          end
      end
  end.

(** [UPDATE tasks SET c1 = ?, ... WHERE id = ?] with the parameters
    [params ++ [task_id]]. *)
Definition exec_update (updates : list column) (params : list pyval)
    (task_id : Z) : M unit :=
  vals <- lift (bind_params params) ;;
  _ <- lift (bind_param (PInt task_id)) ;;
  fun d =>
    match update_rows updates vals task_id (tasks d) with
    | Raise e => (Raise e, d)
    | Ok rows => (Ok tt, {| tasks := rows; seq := seq d |})
    end.

(** [DELETE FROM tasks WHERE id = ?]; the result is [cursor.rowcount]. *)
Definition exec_delete (task_id : Z) : M Z :=
  _ <- lift (bind_param (PInt task_id)) ;;
  fun d =>
    (Ok (Z.of_nat (length (filter (fun r => has_id task_id r = true) (tasks d)))),
     {| tasks := filter (fun r => has_id task_id r = false) (tasks d);
        seq := seq d |}).

(** ** The data-access layer ([app/database.py])

    Every function wraps its block in [try ... except: raise], which
    changes nothing, so the wrapper is not written out. *)

Definition create_task (title description due_date status : pyval) : M Z :=
  get_db_connection (
    task_id <- exec_insert title description due_date status ;;
    ret task_id).

Definition get_all_tasks : M (list task) :=
  get_db_connection (
    rows <- exec_select_all ;;
    ret rows).

Definition get_task_by_id (task_id : Z) : M (option task) :=
  get_db_connection (
    row <- exec_select_by_id task_id ;;
    match row with
    | Some r => ret (Some r)
    | None => ret None
    end).

(** The lists [updates] and [params] that [update_task] builds, one
    [append] to each for every argument that [is not None]. *)
Definition set_clauses (title description due_date status : pyval)
  : list column * list pyval :=
  let up : list column * list pyval := ([], []) in
  let up := if is_none title then up
            else ((up.1 ++ [ColTitle])%list, (up.2 ++ [title])%list) in
  let up := if is_none description then up
            else ((up.1 ++ [ColDescription])%list, (up.2 ++ [description])%list) in
  let up := if is_none due_date then up
            else ((up.1 ++ [ColDueDate])%list, (up.2 ++ [due_date])%list) in
  let up := if is_none status then up
            else ((up.1 ++ [ColStatus])%list, (up.2 ++ [status])%list) in
  up.

Definition update_task (task_id : Z)
    (title description due_date status : pyval) : M bool :=
  get_db_connection (
    (* First check if task exists *)
    found <- exec_select_by_id task_id ;;
    match found with
    | None => ret false
    | Some _ =>
        let up := set_clauses title description due_date status in
        match up.1 with
        | _ :: _ =>
            _ <- exec_update up.1 up.2 task_id ;;
            ret true
        | [] => ret true
        end
    end).

Definition delete_task (task_id : Z) : M bool :=
  get_db_connection (
    rowcount <- exec_delete task_id ;;
    let deleted := 0 <? rowcount in
    ret deleted).

(** ** The HTTP layer ([app/app.py]) *)

Inductive body : Type :=
  | BTask (t : task)
  | BNull
  | BTasks (l : list task)
  | BError (msg : string)
  | BMessage (msg : string).

Record response : Type := mk_response {
  code : Z;
  payload : body
}.

(** [jsonify(task)] for the result of [get_task_by_id]. *)
Definition jsonify_task (t : option task) : body :=
  match t with
  | Some r => BTask r
  | None => BNull
  end.

(** [try: ... except Exception: return jsonify(error), 500]. *)
Definition catch_all (h : M response) : db -> response * db :=
  fun d =>
    match h d with
    | (Ok r, d') => (r, d')
    | (Raise _, d') => (mk_response 500 (BError "Internal server error"), d')
    end.

Definition status_message : string :=
  "Status must be one of: pending, in_progress, completed".

(** [not title or not title.strip()] *)
Definition title_missing (title : pyval) : outcome bool :=
  if negb (truthy title) then Ok true
  else match py_strip title with
       | Ok s => Ok (negb (truthy (PStr s)))
       | Raise e => Raise e
       end.

(** [title is not None and not title.strip()] *)
Definition title_blank (title : pyval) : outcome bool :=
  if is_none title then Ok false
  else match py_strip title with
       | Ok s => Ok (negb (truthy (PStr s)))
       | Raise e => Raise e
       end.

(** POST /api/tasks; [data] is [request.get_json(force=True,
    silent=True)], that is [PNone] when the body does not parse. *)
Definition api_create_task (data : pyval) : db -> response * db :=
  catch_all (
    if negb (truthy data) then
      ret (mk_response 400 (BError "No data provided"))
    else
      title <- lift (py_get data "title" PNone) ;;
      missing <- lift (title_missing title) ;;
      if missing then
        ret (mk_response 400 (BError "Title is required"))
      else
        description <- lift (py_get data "description" PNone) ;;
        due_date <- lift (py_get data "due_date" PNone) ;;
        status <- lift (py_get data "status" (PStr "pending")) ;;
        if negb (py_in status valid_statuses) then
          ret (mk_response 400 (BError status_message))
        else
          stripped <- lift (py_strip title) ;;
          task_id <- create_task (PStr stripped) description due_date status ;;
          task <- get_task_by_id task_id ;;
          ret (mk_response 201 (jsonify_task task))).

(** GET /api/tasks *)
Definition api_get_all_tasks : db -> response * db :=
  catch_all (
    tasks <- get_all_tasks ;;
    ret (mk_response 200 (BTasks tasks))).

(** GET /api/tasks/<int:task_id> *)
Definition api_get_task (task_id : Z) : db -> response * db :=
  catch_all (
    task <- get_task_by_id task_id ;;
    match task with
    | None => ret (mk_response 404 (BError "Task not found"))
    | Some r => ret (mk_response 200 (BTask r))
    end).

(** PUT /api/tasks/<int:task_id> *)
Definition api_update_task (task_id : Z) (data : pyval)
  : db -> response * db :=
  catch_all (
    if negb (truthy data) then
      ret (mk_response 400 (BError "No data provided"))
    else
      title <- lift (py_get data "title" PNone) ;;
      description <- lift (py_get data "description" PNone) ;;
      due_date <- lift (py_get data "due_date" PNone) ;;
      status <- lift (py_get data "status" PNone) ;;
      if negb (is_none status) && negb (py_in status valid_statuses) then
        ret (mk_response 400 (BError status_message))
      else
        blank <- lift (title_blank title) ;;
        if blank then
          ret (mk_response 400 (BError "Title cannot be empty"))
        else
          success <- update_task task_id title description due_date status ;;
          if negb success then
            ret (mk_response 404 (BError "Task not found"))
          else
            task <- get_task_by_id task_id ;;
            ret (mk_response 200 (jsonify_task task))).

(** DELETE /api/tasks/<int:task_id> *)
Definition api_delete_task (task_id : Z) : db -> response * db :=
  catch_all (
    success <- delete_task task_id ;;
    if negb success then
      ret (mk_response 404 (BError "Task not found"))
    else
      ret (mk_response 200 (BMessage "Task deleted successfully"))).

(** [@app.errorhandler(404)] *)
Definition not_found : response :=
  mk_response 404 (BError "Resource not found").

(** ** Requests and their routing *)

Inductive request : Type :=
  | POST_tasks (data : pyval)
  | GET_tasks
  | GET_task (task_id : Z)
  | PUT_task (task_id : Z) (data : pyval)
  | DELETE_task (task_id : Z).

(** The converter [<int:task_id>] matches digits only: a path with a
    negative number reaches no handler. *)
Definition serve (r : request) : db -> response * db :=
  match r with
  | POST_tasks data => api_create_task data
  | GET_tasks => api_get_all_tasks
  | GET_task i => if i <? 0 then pair not_found else api_get_task i
  | PUT_task i data => if i <? 0 then pair not_found else api_update_task i data
  | DELETE_task i => if i <? 0 then pair not_found else api_delete_task i
  end.

Fixpoint serve_all (rs : list request) (d : db) : list response * db :=
  match rs with
  | [] => ([], d)
  | r :: rs' =>
      let '(resp, d') := serve r d in
      let '(resps, d'') := serve_all rs' d' in
      (resp :: resps, d'')
  end.

(** ** Calls to the data-access layer, for sequences of operations *)

Inductive call : Type :=
  | Create (title description due_date status : pyval)
  | ListAll
  | GetById (task_id : Z)
  | Update (task_id : Z) (title description due_date status : pyval)
  | Delete (task_id : Z).

Inductive result : Type :=
  | Created (task_id : Z)
  | Listed (l : list task)
  | Got (t : option task)
  | Updated (success : bool)
  | Deleted (success : bool)
  | Failed (e : exn).

Definition to_result {A} (f : A -> result) (x : outcome A * db)
  : result * db :=
  match x with
  | (Ok a, d) => (f a, d)
  | (Raise e, d) => (Failed e, d)
  end.

Definition perform (c : call) (d : db) : result * db :=
  match c with
  | Create t ds dd s => to_result Created (create_task t ds dd s d)
  | ListAll => to_result Listed (get_all_tasks d)
  | GetById i => to_result Got (get_task_by_id i d)
  | Update i t ds dd s => to_result Updated (update_task i t ds dd s d)
  | Delete i => to_result Deleted (delete_task i d)
  end.

Fixpoint perform_all (cs : list call) (d : db) : list result * db :=
  match cs with
  | [] => ([], d)
  | c :: cs' =>
      let '(r, d') := perform c d in
      let '(rs, d'') := perform_all cs' d' in
      (r :: rs, d'')
  end.

(** ** Notions used to state the properties *)

(** A string is blank when it holds whitespace only (the empty string
    included). *)
Fixpoint all_space (s : string) : bool :=
  match s with
  | EmptyString => true
  | String c s' => isspace c && all_space s'
  end.

(** An [Optional[str]] as a Python value: what [dict(row)] holds for a
    TEXT column, and the declared type of the arguments of
    [update_task]. *)
Definition opt_str (o : option string) : pyval :=
  match o with
  | Some s => PStr s
  | None => PNone
  end.

Definition is_text_or_null (v : pyval) : bool :=
  match v with
  | PNone | PStr _ => true
  | _ => false
  end.

(** The value a column holds after [update_task]: the old one for an
    argument that is [None], else what the storage keeps for the
    argument. *)
Definition new_value (v : pyval) (old : option string) : option string :=
  if is_none v then old
  else match bind_param v with
       | Ok x => text_affinity x
       | Raise _ => old
       end.

(** The row that the UPDATE statement of [update_task] makes of [r]. *)
Definition patched (t ds dd s : pyval) (r : task) : task :=
  {| id := id r;
     title := default (title r) (new_value t (Some (title r)));
     description := new_value ds (description r);
     due_date := new_value dd (due_date r);
     status := default (status r) (new_value s (Some (status r))) |}.

Definition patch_rows (i : Z) (t ds dd s : pyval) (rows : list task)
  : list task :=
  map (fun r => if has_id i r then patched t ds dd s r else r) rows.

Definition server_error : response :=
  mk_response 500 (BError "Internal server error").

(** The checks of the PUT handler: the body is a non-empty object, the
    status is null, absent or one of the three values, the title is
    null, absent or a string that is not blank. *)
Definition passes_validation (data : pyval) : bool :=
  match data with
  | PDict items =>
      let status := dict_get_or items "status" PNone in
      let title := dict_get_or items "title" PNone in
      truthy data
      && (is_none status || py_in status valid_statuses)
      && match title with
         | PNone => true
         | PStr t => negb (String.eqb (strip t) "")
         | _ => false
         end
  | _ => false
  end.

Definition ids (d : db) : list Z := map id (tasks d).

(** The invariant of the table: the primary keys are distinct and none
    exceeds the AUTOINCREMENT counter. *)
Definition well_formed (d : db) : Prop :=
  NoDup (ids d) /\ Forall (fun i => 0 < i <= seq d) (ids d).


Definition is_created (r : result) : bool :=
  match r with Created _ => true | _ => false end.

Definition is_deleted (r : result) : bool :=
  match r with Deleted true => true | _ => false end.

Fixpoint count (p : result -> bool) (rs : list result) : Z :=
  match rs with
  | [] => 0
  | r :: rs' => (if p r then 1 else 0) + count p rs'
  end.




(** What the checks of the handlers let into a row: a title that is
    not blank and one of the three statuses. *)
Definition valid_row (r : task) : Prop :=
  all_space (title r) = false /\ In (status r) valid_statuses.

(** The change in the number of stored tasks that an answer announces:
    one more for a POST answered 201, one less for a DELETE answered
    200. *)
Definition net_change (req : request) (resp : response) : Z :=
  match req with
  | POST_tasks _ => if code resp =? 201 then 1 else 0
  | DELETE_task _ => if code resp =? 200 then -1 else 0
  | _ => 0
  end.

Fixpoint net_created (reqs : list request) (resps : list response) : Z :=
  match reqs, resps with
  | q :: reqs', p :: resps' => net_change q p + net_created reqs' resps'
  | _, _ => 0
  end.

(** The ids in the records of the answers with code 201, in the order of
    the answers. *)
Definition posted_ids (resps : list response) : list Z :=
  flat_map (fun p => if code p =? 201
                     then match payload p with BTask r => [id r] | _ => [] end
                     else []) resps.

(** * Properties *)

(** ** Blank strings *)

Lemma lstrip_all_space (s : string) : all_space s = true -> lstrip s = "".
Proof.
  induction s as [|c s IH]; simpl; [reflexivity|].
  destruct (isspace c); [exact IH|discriminate].
Qed.

Lemma lstrip_not_all_space (s : string) :
  all_space s = false ->
  exists c s', lstrip s = String c s' /\ isspace c = false.
Proof.
  induction s as [|c s IH]; simpl; [discriminate|].
  destruct (isspace c) eqn:E; [exact IH|eauto].
Qed.

Lemma rstrip_head (c : ascii) (s : string) :
  isspace c = false -> rstrip (String c s) <> "".
Proof.
  intros E. simpl. destruct (rstrip s); [rewrite E|]; discriminate.
Qed.

(** [s.strip()] is empty exactly for a blank [s]. *)
Lemma strip_empty_iff (s : string) : strip s = "" <-> all_space s = true.
Proof.
  unfold strip. split.
  - intros H. destruct (all_space s) eqn:E; [reflexivity|].
    destruct (lstrip_not_all_space s E) as (c & s' & Hl & Hc).
    rewrite Hl in H. exfalso. exact (rstrip_head c s' Hc H).
  - intros H. rewrite (lstrip_all_space s H). reflexivity.
Qed.

(** ** Equations of the data-access layer *)

(** [init_db] creates the empty table once and keeps an existing one. *)
Lemma init_db_idempotent (file : option db) :
  init_db (Some (init_db file)) = init_db file /\
  init_db None = empty_db.
Proof. split; reflexivity. Qed.

Lemma largest_rowid_ge (l : list task) (r : task) :
  In r l -> id r <= largest_rowid l.
Proof.
  induction l as [|a l IH]; simpl; [tauto|].
  intros [->|H]; [lia|]. specialize (IH H). lia.
Qed.

Lemma largest_rowid_nonneg (l : list task) : 0 <= largest_rowid l.
Proof. induction l; simpl; lia. Qed.

Lemma next_rowid_fresh (d : db) (r : task) :
  In r (tasks d) -> id r < next_rowid d.
Proof.
  intros H. apply largest_rowid_ge in H. unfold next_rowid. lia.
Qed.

Lemma find_fresh (i : Z) (l : list task) :
  (forall r, In r l -> id r <> i) -> find (has_id i) l = None.
Proof.
  induction l as [|a l IH]; simpl; [reflexivity|]. intros H.
  unfold has_id at 1. destruct (Z.eqb_spec (id a) i) as [E|_].
  - exfalso. apply (H a); auto.
  - apply IH. intros r Hr. apply H. auto.
Qed.

Lemma find_app_fresh (i : Z) (l : list task) (r : task) :
  (forall x, In x l -> id x <> i) -> id r = i ->
  find (has_id i) (l ++ [r]) = Some r.
Proof.
  induction l as [|a l IH]; simpl; intros H E.
  - unfold has_id. rewrite E, Z.eqb_refl. reflexivity.
  - unfold has_id at 1. destruct (Z.eqb_spec (id a) i) as [E'|_].
    + exfalso. apply (H a); auto.
    + apply IH; auto.
Qed.


Lemma get_task_by_id_eq (i : Z) (d : db) :
  get_task_by_id i d =
  ((if int64_range i then Ok (find (has_id i) (tasks d))
    else Raise OverflowError), d).
Proof.
  unfold get_task_by_id, get_db_connection, exec_select_by_id, bind, lift, ret.
  simpl. destruct (int64_range i); [|reflexivity].
  destruct (find (has_id i) (tasks d)); reflexivity.
Qed.

Lemma get_all_tasks_eq (d : db) :
  get_all_tasks d = (Ok (merge_sort id_desc (tasks d)), d).
Proof. reflexivity. Qed.

(** A failed call to the layer leaves the file as it was. *)
Lemma get_db_connection_raise {A} (block : M A) (d d' : db) (e : exn) :
  get_db_connection block d = (Raise e, d') -> d' = d.
Proof.
  unfold get_db_connection. destruct (block d) as [[a|e'] d'']; congruence.
Qed.

(** What a successful [create_task] returns and stores. *)
Lemma create_task_ok (t ds dd s : pyval) (d d' : db) (i : Z) :
  create_task t ds dd s d = (Ok i, d') ->
  exists vt vd vdd vs tt ss,
    bind_param t = Ok vt /\ bind_param ds = Ok vd /\
    bind_param dd = Ok vdd /\ bind_param s = Ok vs /\
    text_affinity vt = Some tt /\ text_affinity vs = Some ss /\
    i = next_rowid d /\ next_rowid d <= max_rowid /\
    d' = {| tasks := tasks d ++
              [{| id := i; title := tt; description := text_affinity vd;
                  due_date := text_affinity vdd; status := ss |}];
            seq := i |}.
Proof.
  unfold create_task, get_db_connection, exec_insert, bind, lift, ret.
  destruct (bind_param t) as [vt|]; [|discriminate].
  destruct (bind_param ds) as [vd|]; [|discriminate].
  destruct (bind_param dd) as [vdd|]; [|discriminate].
  destruct (bind_param s) as [vs|]; [|discriminate].
  destruct (Z.ltb_spec max_rowid (next_rowid d)) as [|Hle]; [discriminate|].
  destruct (text_affinity vt) as [tt|] eqn:Et; [|discriminate].
  destruct (text_affinity vs) as [ss|] eqn:Es; [|discriminate].
  intros H. injection H as <- <-.
  exists vt, vd, vdd, vs, tt, ss. repeat split; auto.
Qed.

Lemma create_task_raise (t ds dd s : pyval) (d d' : db) (e : exn) :
  create_task t ds dd s d = (Raise e, d') -> d' = d.
Proof. apply get_db_connection_raise. Qed.

(** The row just created is the one [get_task_by_id] finds. *)
Lemma get_after_create (d : db) (r : task) :
  id r = next_rowid d -> next_rowid d <= max_rowid ->
  get_task_by_id (id r) {| tasks := tasks d ++ [r]; seq := id r |} =
  (Ok (Some r), {| tasks := tasks d ++ [r]; seq := id r |}).
Proof.
  intros E Hle. rewrite get_task_by_id_eq. simpl.
  assert (Hr : int64_range (id r) = true).
  { unfold int64_range. rewrite E.
    pose proof (largest_rowid_nonneg (tasks d)).
    unfold next_rowid in *. unfold max_rowid in *.
    apply andb_true_intro. split; apply Z.leb_le; lia. }
  rewrite Hr, find_app_fresh; auto.
  intros x Hx. apply next_rowid_fresh in Hx. lia.
Qed.

(** ** Creation *)

(** Unfolds the monadic plumbing of the handlers. *)
Ltac unfold_handler :=
  unfold catch_all, bind, lift, ret, py_get, title_missing, title_blank,
    py_strip in *.

(** What a POST that answers 201 did. *)
Lemma api_create_task_201 (data : pyval) (d d' : db) (resp : response) :
  api_create_task data d = (resp, d') -> code resp = 201 ->
  exists items t i d1 task,
    data = PDict items /\
    dict_get_or items "title" PNone = PStr t /\ strip t <> "" /\
    py_in (dict_get_or items "status" (PStr "pending")) valid_statuses = true /\
    create_task (PStr (strip t)) (dict_get_or items "description" PNone)
      (dict_get_or items "due_date" PNone)
      (dict_get_or items "status" (PStr "pending")) d = (Ok i, d1) /\
    get_task_by_id i d1 = (Ok task, d') /\
    resp = mk_response 201 (jsonify_task task).
Proof.
  unfold api_create_task. unfold_handler. intros H Hc.
  repeat (case_match; simplify_eq/=; try discriminate).
  eexists _, _, _, _, _. repeat split; eauto.
  - apply String.eqb_neq. destruct (String.eqb (strip _) ""); auto.
  - destruct (py_in _ _); auto.
Qed.

(** [api_create_task_201] read back: when the payload is accepted by
    the checks and by the storage, the answer is 201. *)
Lemma api_create_task_accepts (items : list (string * pyval)) (t : string)
    (d d1 : db) (i : Z) (r : task) :
  dict_get_or items "title" PNone = PStr t -> strip t <> "" ->
  py_in (dict_get_or items "status" (PStr "pending")) valid_statuses = true ->
  create_task (PStr (strip t)) (dict_get_or items "description" PNone)
    (dict_get_or items "due_date" PNone)
    (dict_get_or items "status" (PStr "pending")) d = (Ok i, d1) ->
  get_task_by_id i d1 = (Ok (Some r), d1) ->
  api_create_task (PDict items) d = (mk_response 201 (BTask r), d1).
Proof.
  intros Ht Hs Hst Hc Hg. unfold api_create_task. unfold_handler.
  assert (Hne : String.eqb (strip t) "" = false)
    by (apply String.eqb_neq; auto).
  assert (Hne' : String.eqb t "" = false).
  { apply String.eqb_neq. intros ->. apply Hs. reflexivity. }
  destruct items as [|p l]; [discriminate|]. rewrite Ht.
  cbn [truthy negb]. rewrite Hne', Hne. cbn [negb].
  rewrite Hst. cbn [negb]. rewrite Hc, Hg. reflexivity.
Qed.

(** What a column holds for a bound value that is text or NULL. *)
Lemma text_affinity_bind (v : pyval) (x : sqlval) :
  is_text_or_null v = true -> bind_param v = Ok x ->
  opt_str (text_affinity x) = v.
Proof. destruct v; simpl; try discriminate; intros _ [= <-]; reflexivity. Qed.

Lemma py_in_str (v : pyval) (l : list string) :
  py_in v l = true -> exists s, v = PStr s /\ In s l.
Proof.
  destruct v; simpl; try discriminate. intros H.
  apply existsb_exists in H. destruct H as [x [Hx E]].
  apply String.eqb_eq in E. subst x. eauto.
Qed.

(** The record that an accepted POST stores and returns. *)
Lemma api_create_task_stored (items : list (string * pyval)) (d d' : db)
    (resp : response) :
  api_create_task (PDict items) d = (resp, d') -> code resp = 201 ->
  exists t r vd vdd,
    dict_get_or items "title" PNone = PStr t /\
    payload resp = BTask r /\
    get_task_by_id (id r) d' = (Ok (Some r), d') /\
    title r = strip t /\
    bind_param (dict_get_or items "description" PNone) = Ok vd /\
    description r = text_affinity vd /\
    (is_text_or_null (dict_get_or items "description" PNone) = true ->
     opt_str (description r) = dict_get_or items "description" PNone) /\
    bind_param (dict_get_or items "due_date" PNone) = Ok vdd /\
    due_date r = text_affinity vdd /\
    (is_text_or_null (dict_get_or items "due_date" PNone) = true ->
     opt_str (due_date r) = dict_get_or items "due_date" PNone) /\
    PStr (status r) = dict_get_or items "status" (PStr "pending") /\
    In (status r) valid_statuses.
Proof.
  intros H Hc.
  destruct (api_create_task_201 _ _ _ _ H Hc)
    as (items' & t & i & d1 & tk & [= <-] & Ht & Hs & Hst & Hcr & Hg & ->).
  apply create_task_ok in Hcr.
  destruct Hcr as (vt & vd & vdd & vs & tt & ss & Bt & Bd & Bdd & Bs
                   & At & As & Hi & Hle & ->).
  apply py_in_str in Hst. destruct Hst as (s & Es & Hin).
  rewrite Es in Bs. simpl in Bt, Bs. injection Bt as <-. injection Bs as <-.
  simpl in At, As. injection At as <-. injection As as <-.
  set (r := {| id := i; title := strip t; description := text_affinity vd;
               due_date := text_affinity vdd; status := s |}) in *.
  pose proof (get_after_create d r Hi Hle) as Hget. simpl in Hget.
  rewrite Hget in Hg. injection Hg as <- <-.
  exists t, r, vd, vdd. simpl.
  repeat split; auto using text_affinity_bind.
Qed.

(** Every payload with a non-blank string title, a status that is
    absent or one of the three values, and a description and due_date
    that are strings, null or absent is accepted, as long as the table
    can still number a row. *)
Lemma valid_payload_accepted (items : list (string * pyval)) (t : string)
    (d : db) :
  dict_get_or items "title" PNone = PStr t -> strip t <> "" ->
  py_in (dict_get_or items "status" (PStr "pending")) valid_statuses = true ->
  is_text_or_null (dict_get_or items "description" PNone) = true ->
  is_text_or_null (dict_get_or items "due_date" PNone) = true ->
  next_rowid d <= max_rowid ->
  code (api_create_task (PDict items) d).1 = 201.
Proof.
  intros Ht Hs Hst Hd Hdd Hle.
  destruct (py_in_str _ _ Hst) as (s & Es & _).
  assert (Hb : forall v, is_text_or_null v = true ->
                         exists x, bind_param v = Ok x).
  { intros v Hv. destruct v; try discriminate; simpl; eauto. }
  destruct (Hb _ Hd) as [vd Bd]. destruct (Hb _ Hdd) as [vdd Bdd].
  set (r := {| id := next_rowid d; title := strip t;
               description := text_affinity vd;
               due_date := text_affinity vdd; status := s |}).
  erewrite (api_create_task_accepts items t d _ (next_rowid d) r);
    [reflexivity|exact Ht|exact Hs|exact Hst| |].
  - unfold create_task, get_db_connection, exec_insert, bind, lift, ret.
    rewrite Bd, Bdd, Es. simpl.
    destruct (Z.ltb_spec max_rowid (next_rowid d)); [lia|]. reflexivity.
  - apply (get_after_create d r); [reflexivity|exact Hle].
Qed.

(** C1, amended.  When POST /api/tasks accepts a payload (answers 201),
    the record it returns is the one a following get-by-id on the
    assigned id returns; its title is the supplied title with the
    leading and trailing whitespace removed; its description and its
    due_date are what the storage keeps for the supplied values, which
    is the supplied value itself when that is a string or null (an
    absent field counts as null); its status is the supplied one, or
    "pending" when the field is absent. *)
Theorem create_round_trip (items : list (string * pyval)) (d d' : db)
    (resp : response) :
  api_create_task (PDict items) d = (resp, d') -> code resp = 201 ->
  exists t r vd vdd,
    dict_get_or items "title" PNone = PStr t /\
    payload resp = BTask r /\
    get_task_by_id (id r) d' = (Ok (Some r), d') /\
    title r = strip t /\
    bind_param (dict_get_or items "description" PNone) = Ok vd /\
    description r = text_affinity vd /\
    (is_text_or_null (dict_get_or items "description" PNone) = true ->
     opt_str (description r) = dict_get_or items "description" PNone) /\
    bind_param (dict_get_or items "due_date" PNone) = Ok vdd /\
    due_date r = text_affinity vdd /\
    (is_text_or_null (dict_get_or items "due_date" PNone) = true ->
     opt_str (due_date r) = dict_get_or items "due_date" PNone) /\
    PStr (status r) = dict_get_or items "status" (PStr "pending") /\
    In (status r) valid_statuses.
Proof. apply api_create_task_stored. Qed.

Lemma create_round_trip_witness :
  exists t r vd vdd,
    dict_get_or [("title", PStr " Buy milk "); ("due_date", PStr "")]
      "title" PNone = PStr t /\
    BTask (mk_task 1 "Buy milk" None (Some "") "pending") = BTask r /\
    get_task_by_id (id r)
      (mk_db [mk_task 1 "Buy milk" None (Some "") "pending"] 1) =
    (Ok (Some r), mk_db [mk_task 1 "Buy milk" None (Some "") "pending"] 1) /\
    title r = strip t /\
    bind_param (dict_get_or [("title", PStr " Buy milk "); ("due_date", PStr "")]
                  "description" PNone) = Ok vd /\
    description r = text_affinity vd /\
    (is_text_or_null
       (dict_get_or [("title", PStr " Buy milk "); ("due_date", PStr "")]
          "description" PNone) = true ->
     opt_str (description r) =
     dict_get_or [("title", PStr " Buy milk "); ("due_date", PStr "")]
       "description" PNone) /\
    bind_param (dict_get_or [("title", PStr " Buy milk "); ("due_date", PStr "")]
                  "due_date" PNone) = Ok vdd /\
    due_date r = text_affinity vdd /\
    (is_text_or_null
       (dict_get_or [("title", PStr " Buy milk "); ("due_date", PStr "")]
          "due_date" PNone) = true ->
     opt_str (due_date r) =
     dict_get_or [("title", PStr " Buy milk "); ("due_date", PStr "")]
       "due_date" PNone) /\
    PStr (status r) =
    dict_get_or [("title", PStr " Buy milk "); ("due_date", PStr "")]
      "status" (PStr "pending") /\
    In (status r) valid_statuses.
Proof.
  apply (create_round_trip
           [("title", PStr " Buy milk "); ("due_date", PStr "")] empty_db
           (mk_db [mk_task 1 "Buy milk" None (Some "") "pending"] 1)
           (mk_response 201
              (BTask (mk_task 1 "Buy milk" None (Some "") "pending"))));
    reflexivity.
Defined.

(** C1 as the specification words it fails: the title " a" comes back
    as "a", and the description 5 (a JSON number) comes back as the
    string "5". *)
Lemma create_round_trip_counterexample :
  exists resp d' r,
    api_create_task
      (PDict [("title", PStr " a"); ("description", PInt 5)]) empty_db
    = (resp, d') /\
    code resp = 201 /\
    payload resp = BTask r /\
    get_task_by_id (id r) d' = (Ok (Some r), d') /\
    PStr (title r) <> PStr " a" /\
    opt_str (description r) <> PInt 5.
Proof.
  eexists _, _, _. split; [vm_compute; reflexivity|].
  repeat split; try discriminate.
Qed.

(** C10.  A POST whose body is an object with a title that is truthy
    and not a string is answered by the catch-all handler with 500, and
    nothing is stored. *)
Theorem create_non_string_title (items : list (string * pyval)) (v : pyval)
    (d : db) :
  dict_get items "title" = Some v ->
  truthy v = true ->
  (forall s, v <> PStr s) ->
  api_create_task (PDict items) d =
  (mk_response 500 (BError "Internal server error"), d).
Proof.
  intros Hg Ht Hs. unfold api_create_task. unfold_handler.
  destruct items as [|p l]; [discriminate|]. cbn [truthy negb].
  unfold dict_get_or. rewrite Hg, Ht. cbn [negb].
  destruct v; try reflexivity. exfalso. eapply Hs. reflexivity.
Qed.

Lemma create_non_string_title_witness :
  api_create_task (PDict [("title", PInt 7); ("status", PStr "pending")])
    empty_db =
  (mk_response 500 (BError "Internal server error"), empty_db)
  /\
  api_create_task (PDict [("title", PList [PStr "x"])]) empty_db =
  (mk_response 500 (BError "Internal server error"), empty_db).
Proof.
  split.
  - apply (create_non_string_title
             [("title", PInt 7); ("status", PStr "pending")] (PInt 7));
      [reflexivity | reflexivity | discriminate].
  - apply (create_non_string_title
             [("title", PList [PStr "x"])] (PList [PStr "x"]));
      [reflexivity | reflexivity | discriminate].
Defined.

(** ** Update *)

Lemma bind_param_not_null (v : pyval) (x : sqlval) :
  is_none v = false -> bind_param v = Ok x ->
  exists s, text_affinity x = Some s.
Proof.
  destruct v; simpl; intros; try discriminate; simplify_eq; eauto.
  destruct (int64_range z); simplify_eq; simpl; eauto.
Qed.

Lemma assign_all_set_clauses (t ds dd s : pyval) (vals : list sqlval)
    (r : task) :
  bind_params (set_clauses t ds dd s).2 = Ok vals ->
  assign_all (set_clauses t ds dd s).1 vals r = Ok (patched t ds dd s r).
Proof.
  unfold set_clauses, patched, new_value.
  destruct (is_none t) eqn:Et, (is_none ds) eqn:Ed,
    (is_none dd) eqn:Edd, (is_none s) eqn:Es; simpl;
    repeat match goal with
      | |- context [bind_param ?v] =>
          let B := fresh "B" in
          destruct (bind_param v) eqn:B; try discriminate
      end;
    intros H; simplify_eq; simpl;
    repeat match goal with
      | H1 : is_none ?v = false, H2 : bind_param ?v = Ok ?x |- _ =>
          let E := fresh "E" in
          destruct (bind_param_not_null v x H1 H2) as [? E];
          rewrite ?E; clear H1
      end; simpl; destruct r; reflexivity.
Qed.

Lemma update_rows_patch (i : Z) (t ds dd s : pyval) (vals : list sqlval)
    (rows : list task) :
  bind_params (set_clauses t ds dd s).2 = Ok vals ->
  update_rows (set_clauses t ds dd s).1 vals i rows =
  Ok (patch_rows i t ds dd s rows).
Proof.
  intros H. induction rows as [|r rows IH]; simpl; [reflexivity|].
  rewrite IH. destruct (has_id i r); [|reflexivity].
  rewrite (assign_all_set_clauses _ _ _ _ _ _ H). reflexivity.
Qed.

Lemma patched_none (r : task) : patched PNone PNone PNone PNone r = r.
Proof. destruct r; reflexivity. Qed.

Lemma set_clauses_nil (t ds dd s : pyval) :
  (set_clauses t ds dd s).1 = [] ->
  t = PNone /\ ds = PNone /\ dd = PNone /\ s = PNone.
Proof.
  unfold set_clauses.
  destruct t, ds, dd, s; simpl; intros H; try discriminate; auto.
Qed.

Lemma patch_rows_none (i : Z) (rows : list task) :
  patch_rows i PNone PNone PNone PNone rows = rows.
Proof.
  unfold patch_rows. induction rows as [|r rows IH]; simpl; [reflexivity|].
  rewrite IH, patched_none. destruct (has_id i r); reflexivity.
Qed.

(** [update_task] in one equation. *)
Lemma update_task_eq (i : Z) (t ds dd s : pyval) (d : db) :
  update_task i t ds dd s d =
  if int64_range i then
    match find (has_id i) (tasks d) with
    | None => (Ok false, d)
    | Some _ =>
        match bind_params (set_clauses t ds dd s).2 with
        | Raise e => (Raise e, d)
        | Ok _ =>
            (Ok true,
             {| tasks := patch_rows i t ds dd s (tasks d); seq := seq d |})
        end
    end
  else (Raise OverflowError, d).
Proof.
  unfold update_task, get_db_connection, exec_select_by_id, exec_update,
    bind, lift, ret. simpl.
  destruct (int64_range i) eqn:Hr; [|reflexivity].
  destruct (find (has_id i) (tasks d)); [|reflexivity].
  destruct ((set_clauses t ds dd s).1) eqn:Hc.
  - apply set_clauses_nil in Hc. destruct Hc as (-> & -> & -> & ->).
    simpl. rewrite patch_rows_none. destruct d; reflexivity.
  - rewrite <- Hc.
    destruct (bind_params (set_clauses t ds dd s).2) as [vals|e] eqn:Hb;
      [|reflexivity].
    rewrite ?Hr, (update_rows_patch _ _ _ _ _ _ _ Hb). reflexivity.
Qed.

Lemma delete_task_eq (i : Z) (d : db) :
  delete_task i d =
  if int64_range i then
    (Ok (0 <? Z.of_nat (length (filter (fun r => has_id i r = true) (tasks d)))),
     {| tasks := filter (fun r => has_id i r = false) (tasks d);
        seq := seq d |})
  else (Raise OverflowError, d).
Proof.
  unfold delete_task, get_db_connection, exec_delete, bind, lift, ret. simpl.
  destruct (int64_range i); reflexivity.
Qed.

Lemma patched_id (t ds dd s : pyval) (r : task) :
  id (patched t ds dd s r) = id r.
Proof. reflexivity. Qed.

Lemma find_patch_rows (i j : Z) (t ds dd s : pyval) (rows : list task) :
  find (has_id j) (patch_rows i t ds dd s rows) =
  if j =? i then option_map (patched t ds dd s) (find (has_id i) rows)
  else find (has_id j) rows.
Proof.
  unfold patch_rows. induction rows as [|r rows IH]; simpl.
  - destruct (j =? i); reflexivity.
  - assert (Hh : has_id j (if has_id i r then patched t ds dd s r else r)
                 = has_id j r) by (destruct (has_id i r); reflexivity).
    rewrite Hh, IH. destruct (Z.eqb_spec j i) as [->|N].
    + destruct (has_id i r); reflexivity.
    + destruct (has_id j r) eqn:Hj; [|reflexivity].
      destruct (has_id i r) eqn:Hi; [|reflexivity].
      unfold has_id in *. lia.
Qed.

Lemma find_existsb (i : Z) (rows : list task) :
  existsb (has_id i) rows = match find (has_id i) rows with
                            | Some _ => true
                            | None => false
                            end.
Proof.
  induction rows as [|r rows IH]; simpl; [reflexivity|].
  destruct (has_id i r); simpl; auto.
Qed.

(** C2, amended.  An update with no field to change reports success
    exactly when a row with that id exists: it answers [False] for an
    id without a row, and never changes the stored state.  (An id
    outside the 64-bit range cannot be bound and raises.) *)
Theorem update_zero_fields (i : Z) (d : db) :
  update_task i PNone PNone PNone PNone d =
  if int64_range i then (Ok (existsb (has_id i) (tasks d)), d)
  else (Raise OverflowError, d).
Proof.
  rewrite update_task_eq, find_existsb.
  destruct (int64_range i); [|reflexivity].
  destruct (find (has_id i) (tasks d)); [|reflexivity].
  simpl. rewrite patch_rows_none. destruct d; reflexivity.
Qed.

(** C2 as the specification words it fails: on the empty table the
    update of id 1 with no field answers [False], not [True]. *)
Lemma update_zero_fields_counterexample :
  update_task 1 PNone PNone PNone PNone empty_db = (Ok false, empty_db) /\
  update_task 1 PNone PNone PNone PNone empty_db <> (Ok true, empty_db).
Proof. split; [reflexivity|discriminate]. Qed.



Lemma get_task_by_id_some (i : Z) (d d' : db) (r : task) :
  get_task_by_id i d = (Ok (Some r), d') ->
  int64_range i = true /\ find (has_id i) (tasks d) = Some r /\ d' = d.
Proof.
  rewrite get_task_by_id_eq. destruct (int64_range i); [|discriminate].
  intros [= H <-]. auto.
Qed.





(** ** The PUT handler *)

(** [api_update_task] on a body that is a non-empty object. *)
Lemma api_update_task_eq (i : Z) (items : list (string * pyval)) (d : db) :
  items <> [] ->
  api_update_task i (PDict items) d =
  let title := dict_get_or items "title" PNone in
  let description := dict_get_or items "description" PNone in
  let due_date := dict_get_or items "due_date" PNone in
  let status := dict_get_or items "status" PNone in
  if negb (is_none status) && negb (py_in status valid_statuses) then
    (mk_response 400 (BError status_message), d)
  else
    match title_blank title with
    | Raise _ => (server_error, d)
    | Ok true => (mk_response 400 (BError "Title cannot be empty"), d)
    | Ok false =>
        match update_task i title description due_date status d with
        | (Raise _, d1) => (server_error, d1)
        | (Ok false, d1) => (mk_response 404 (BError "Task not found"), d1)
        | (Ok true, d1) =>
            match get_task_by_id i d1 with
            | (Raise _, d2) => (server_error, d2)
            | (Ok task, d2) => (mk_response 200 (jsonify_task task), d2)
            end
        end
    end.
Proof.
  intros Hne. destruct items as [|p l]; [congruence|].
  unfold api_update_task, catch_all, bind, lift, ret, py_get.
  cbn [truthy negb]. cbv zeta.
  destruct (negb (is_none _) && negb (py_in _ _)); [reflexivity|].
  destruct (title_blank _) as [[|]|]; try reflexivity.
  destruct (update_task _ _ _ _ _ _) as [[[|]|] d1]; try reflexivity.
  cbn [negb]. destruct (get_task_by_id i d1) as [[tk|] d2]; reflexivity.
Qed.

Lemma py_in_false (v : pyval) (l : list string) :
  (forall s, In s l -> v <> PStr s) -> py_in v l = false.
Proof.
  intros H. destruct (py_in v l) eqn:E; [|reflexivity].
  apply py_in_str in E. destruct E as (s & -> & Hs).
  exfalso. exact (H s Hs eq_refl).
Qed.

Lemma dict_get_nonempty (items : list (string * pyval)) (k : string)
    (v : pyval) : dict_get items k = Some v -> items <> [].
Proof. destruct items; [discriminate|congruence]. Qed.





(** ** Ids without a row *)

Lemma passes_validation_inv (data : pyval) :
  passes_validation data = true ->
  exists items,
    data = PDict items /\ items <> [] /\
    is_none (dict_get_or items "status" PNone)
    || py_in (dict_get_or items "status" PNone) valid_statuses = true /\
    title_blank (dict_get_or items "title" PNone) = Ok false.
Proof.
  intros H. destruct data as [| | | | |items]; try discriminate.
  destruct items as [|p l]; [discriminate|]. exists (p :: l).
  unfold passes_validation in H. apply andb_prop in H. destruct H as [H1 H2].
  apply andb_prop in H1. destruct H1 as [_ H1].
  split; [reflexivity|]. split; [discriminate|]. split; [exact H1|].
  unfold title_blank.
  destruct (dict_get_or (p :: l) "title" PNone); try discriminate;
    [reflexivity|]. simpl. rewrite H2. reflexivity.
Qed.

Lemma filter_missing (i : Z) (rows : list task) :
  find (has_id i) rows = None ->
  filter (fun r => has_id i r = false) rows = rows /\
  filter (fun r => has_id i r = true) rows = [].
Proof.
  induction rows as [|r rows IH]; simpl; [auto|].
  destruct (has_id i r) eqn:E; [discriminate|]. intros H.
  destruct (IH H) as [IH1 IH2]. rewrite !filter_cons.
  repeat case_decide; try congruence. rewrite IH1, IH2. auto.
Qed.

(** C5, amended.  For an id that has no stored task, GET, PUT with a
    body that passes the checks, and DELETE each leave the stored state
    as it was, and each answer 404 when the id lies in the 64-bit
    integer range of the storage engine; for an id beyond that range
    the engine cannot bind it and the three answer 500. *)
Theorem missing_id_no_effect (i : Z) (data : pyval) (d : db) :
  find (has_id i) (tasks d) = None ->
  passes_validation data = true ->
  let resp := if int64_range i
              then mk_response 404 (BError "Task not found")
              else mk_response 500 (BError "Internal server error") in
  api_get_task i d = (resp, d) /\
  api_update_task i data d = (resp, d) /\
  api_delete_task i d = (resp, d).
Proof.
  intros Hf Hv. cbv zeta. repeat split.
  - unfold api_get_task, catch_all, bind, ret.
    rewrite get_task_by_id_eq, Hf. destruct (int64_range i); reflexivity.
  - destruct (passes_validation_inv _ Hv) as (items & -> & Hne & Hs & Ht).
    rewrite api_update_task_eq by exact Hne. cbv zeta.
    rewrite Ht, update_task_eq, Hf.
    destruct (is_none (dict_get_or items "status" PNone));
      simpl in Hs |- *; rewrite ?Hs; simpl;
      destruct (int64_range i); reflexivity.
  - unfold api_delete_task, catch_all, bind, ret. rewrite delete_task_eq.
    destruct (filter_missing i (tasks d) Hf) as [-> ->].
    destruct (int64_range i); [|reflexivity]. destruct d; reflexivity.
Qed.

Lemma missing_id_no_effect_witness :
  api_get_task 7 (mk_db [mk_task 1 "Buy milk" None None "pending"] 1) =
  (mk_response 404 (BError "Task not found"),
   mk_db [mk_task 1 "Buy milk" None None "pending"] 1) /\
  api_update_task 7 (PDict [("status", PStr "completed")])
    (mk_db [mk_task 1 "Buy milk" None None "pending"] 1) =
  (mk_response 404 (BError "Task not found"),
   mk_db [mk_task 1 "Buy milk" None None "pending"] 1) /\
  api_delete_task 7 (mk_db [mk_task 1 "Buy milk" None None "pending"] 1) =
  (mk_response 404 (BError "Task not found"),
   mk_db [mk_task 1 "Buy milk" None None "pending"] 1).
Proof.
  apply (missing_id_no_effect 7 (PDict [("status", PStr "completed")])
           (mk_db [mk_task 1 "Buy milk" None None "pending"] 1));
    reflexivity.
Defined.

(** C5 as the specification words it fails: the id 2^63 has no stored
    task, and the three endpoints answer 500, not 404. *)
Lemma missing_id_counterexample :
  find (has_id 9223372036854775808) (tasks empty_db) = None /\
  code (api_get_task 9223372036854775808 empty_db).1 = 500 /\
  code (api_update_task 9223372036854775808
          (PDict [("status", PStr "completed")]) empty_db).1 = 500 /\
  code (api_delete_task 9223372036854775808 empty_db).1 = 500.
Proof. repeat split. Qed.

(** ** What a PUT stores *)

(** What a PUT that answers 200 did. *)
Lemma api_update_task_200 (i : Z) (items : list (string * pyval)) (d d' : db)
    (resp : response) :
  api_update_task i (PDict items) d = (resp, d') -> code resp = 200 ->
  exists r0,
    let r := patched (dict_get_or items "title" PNone)
               (dict_get_or items "description" PNone)
               (dict_get_or items "due_date" PNone)
               (dict_get_or items "status" PNone) r0 in
    get_task_by_id i d = (Ok (Some r0), d) /\
    title_blank (dict_get_or items "title" PNone) = Ok false /\
    resp = mk_response 200 (BTask r) /\
    get_task_by_id i d' = (Ok (Some r), d') /\
    d' = {| tasks := patch_rows i (dict_get_or items "title" PNone)
                       (dict_get_or items "description" PNone)
                       (dict_get_or items "due_date" PNone)
                       (dict_get_or items "status" PNone) (tasks d);
            seq := seq d |}.
Proof.
  destruct items as [|p l]; [intros [= <- <-]; discriminate|].
  rewrite api_update_task_eq by discriminate. cbv zeta.
  destruct (negb (is_none _) && negb (py_in _ _));
    [intros [= <- <-]; discriminate|].
  destruct (title_blank _) as [[|]|];
    try (intros [= <- <-]; discriminate).
  rewrite update_task_eq.
  destruct (int64_range i) eqn:Hr; [|intros [= <- <-]; discriminate].
  destruct (find (has_id i) (tasks d)) as [r0|] eqn:Hf;
    [|intros [= <- <-]; discriminate].
  destruct (bind_params _); [|intros [= <- <-]; discriminate].
  rewrite get_task_by_id_eq, Hr. simpl. intros [= <- <-] _.
  exists r0. cbv zeta. rewrite !get_task_by_id_eq, Hr, Hf. simpl.
  rewrite find_patch_rows, Z.eqb_refl, Hf. simpl. repeat split; auto.
Qed.

Lemma title_blank_str (t : string) :
  title_blank (PStr t) = Ok false -> strip t <> "".
Proof.
  unfold title_blank. simpl. intros [= H]. apply String.eqb_neq.
  destruct (String.eqb (strip t) ""); [discriminate|reflexivity].
Qed.

(** C8.  PUT stores a supplied title as it is, POST stores it stripped:
    whenever a PUT (answering 200) and a POST (answering 201) carry the
    same title, one that has leading or trailing whitespace, the record
    the PUT leaves has the title with its whitespace, the record the
    POST creates has it without, and the two stored titles differ. *)
Theorem put_verbatim_post_trimmed (t : string) (i : Z)
    (put_items post_items : list (string * pyval))
    (d1 d1' d2 d2' : db) (resp1 resp2 : response) :
  dict_get put_items "title" = Some (PStr t) ->
  dict_get post_items "title" = Some (PStr t) ->
  strip t <> t ->
  api_update_task i (PDict put_items) d1 = (resp1, d1') -> code resp1 = 200 ->
  api_create_task (PDict post_items) d2 = (resp2, d2') -> code resp2 = 201 ->
  exists r1 r2,
    payload resp1 = BTask r1 /\
    get_task_by_id i d1' = (Ok (Some r1), d1') /\
    title r1 = t /\
    payload resp2 = BTask r2 /\
    get_task_by_id (id r2) d2' = (Ok (Some r2), d2') /\
    title r2 = strip t /\
    strip t <> "" /\
    title r1 <> title r2.
Proof.
  intros Hp Hq Hne H1 C1 H2 C2.
  assert (Ep : dict_get_or put_items "title" PNone = PStr t)
    by (unfold dict_get_or; rewrite Hp; reflexivity).
  assert (Eq : dict_get_or post_items "title" PNone = PStr t)
    by (unfold dict_get_or; rewrite Hq; reflexivity).
  destruct (api_update_task_200 _ _ _ _ _ H1 C1)
    as (r0 & _ & Hb & -> & Hg1 & _).
  destruct (api_create_task_stored _ _ _ _ H2 C2)
    as (t' & r2 & vd & vdd & Ht' & Hpay & Hg2 & Htitle & _).
  rewrite Eq in Ht'. injection Ht' as <-.
  rewrite Ep in Hb, Hg1 |- *. apply title_blank_str in Hb.
  eexists _, r2. simpl. repeat split; eauto.
  rewrite Htitle. intros E. apply Hne. rewrite <- E. reflexivity.
Qed.

Lemma put_verbatim_post_trimmed_witness :
  exists r1 r2,
    BTask (mk_task 1 "  Buy milk " None None "pending") = BTask r1 /\
    get_task_by_id 1 (mk_db [mk_task 1 "  Buy milk " None None "pending"] 1)
    = (Ok (Some r1), mk_db [mk_task 1 "  Buy milk " None None "pending"] 1) /\
    title r1 = "  Buy milk " /\
    BTask (mk_task 2 "Buy milk" None None "pending") = BTask r2 /\
    get_task_by_id (id r2)
      (mk_db [mk_task 1 "Tea" None None "pending";
              mk_task 2 "Buy milk" None None "pending"] 2)
    = (Ok (Some r2),
       mk_db [mk_task 1 "Tea" None None "pending";
              mk_task 2 "Buy milk" None None "pending"] 2) /\
    title r2 = strip "  Buy milk " /\
    strip "  Buy milk " <> "" /\
    title r1 <> title r2.
Proof.
  apply (put_verbatim_post_trimmed "  Buy milk " 1
           [("title", PStr "  Buy milk ")] [("title", PStr "  Buy milk ")]
           (mk_db [mk_task 1 "Tea" None None "pending"] 1)
           (mk_db [mk_task 1 "  Buy milk " None None "pending"] 1)
           (mk_db [mk_task 1 "Tea" None None "pending"] 1)
           (mk_db [mk_task 1 "Tea" None None "pending";
                   mk_task 2 "Buy milk" None None "pending"] 2)
           (mk_response 200
              (BTask (mk_task 1 "  Buy milk " None None "pending")))
           (mk_response 201
              (BTask (mk_task 2 "Buy milk" None None "pending"))));
    first [reflexivity | discriminate].
Defined.

(** ** Sequences of operations *)

(** The effect of one call on the file, by the kind of its result. *)
Lemma perform_cases (c : call) (d : db) :
  match perform c d with
  | (Created i, d') =>
      exists r, id r = i /\ i = next_rowid d /\ i <= max_rowid /\
                d' = {| tasks := tasks d ++ [r]; seq := i |}
  | (Updated _, d') =>
      exists i t ds dd s,
        d' = {| tasks := patch_rows i t ds dd s (tasks d); seq := seq d |}
  | (Deleted b, d') =>
      exists i,
        c = Delete i /\
        b = (0 <? Z.of_nat (length (filter (fun r => has_id i r = true)
                                      (tasks d)))) /\
        d' = {| tasks := filter (fun r => has_id i r = false) (tasks d);
                seq := seq d |}
  | (_, d') => d' = d
  end.
Proof.
  destruct c as [t ds dd s| |i|i t ds dd s|i]; unfold perform, to_result.
  - destruct (create_task t ds dd s d) as [[i|e] d'] eqn:H.
    + apply create_task_ok in H.
      destruct H as (vt & vd & vdd & vs & tt & ss & _ & _ & _ & _ & _ & _
                     & Hi & Hle & ->).
      eexists. repeat split; [|exact Hi|lia]. reflexivity.
    + eapply create_task_raise; eauto.
  - reflexivity.
  - rewrite get_task_by_id_eq. destruct (int64_range i); reflexivity.
  - rewrite update_task_eq. destruct (int64_range i); [|reflexivity].
    destruct (find (has_id i) (tasks d)).
    + destruct (bind_params _); [|reflexivity]. eauto 6.
    + exists i, PNone, PNone, PNone, PNone. rewrite patch_rows_none.
      destruct d; reflexivity.
  - rewrite delete_task_eq. destruct (int64_range i); [|reflexivity]. eauto.
Qed.

Lemma ids_patch_rows (i : Z) (t ds dd s : pyval) (rows : list task) :
  map id (patch_rows i t ds dd s rows) = map id rows.
Proof.
  unfold patch_rows. induction rows as [|r rows IH]; simpl; [reflexivity|].
  rewrite IH. destruct (has_id i r); reflexivity.
Qed.

Lemma ids_filter (i : Z) (rows : list task) :
  map id (filter (fun r => has_id i r = false) rows) =
  filter (fun x => x <> i) (map id rows).
Proof.
  induction rows as [|r rows IH]; [reflexivity|].
  simpl map. rewrite !filter_cons.
  repeat case_decide; simpl; rewrite ?IH; try reflexivity;
    exfalso; unfold has_id in *; lia.
Qed.

Lemma largest_rowid_ids (rows : list task) (x : Z) :
  In x (map id rows) -> x <= largest_rowid rows.
Proof.
  intros H. apply in_map_iff in H. destruct H as (r & <- & Hr).
  apply largest_rowid_ge. exact Hr.
Qed.

Lemma well_formed_empty : well_formed empty_db.
Proof. split; constructor. Qed.

Lemma perform_well_formed (c : call) (d : db) :
  well_formed d -> well_formed (perform c d).2.
Proof.
  intros [Hnd Hall]. pose proof (perform_cases c d) as H.
  destruct (perform c d) as [res d']. simpl.
  destruct res as [i|l|o|b|b|e]; try (subst d'; split; assumption).
  - destruct H as (r & Hr & Hi & _ & ->). unfold well_formed, ids. simpl.
    rewrite map_app. simpl. rewrite Hr.
    pose proof (largest_rowid_nonneg (tasks d)) as Hn.
    unfold next_rowid in Hi. split.
    + apply NoDup_app. split; [exact Hnd|]. split; [|apply NoDup_singleton].
      intros x Hx Hx'. apply list_elem_of_In in Hx.
      apply largest_rowid_ids in Hx.
      apply list_elem_of_In in Hx'. destruct Hx' as [<-|[]]. lia.
    + apply Forall_app. split.
      * eapply Forall_impl; [exact Hall|]. simpl. intros x Hx. lia.
      * constructor; [lia|constructor].
  - destruct H as (i & t & ds & dd & s & ->). unfold well_formed, ids. simpl.
    rewrite ids_patch_rows. split; assumption.
  - destruct H as (i & _ & _ & ->). unfold well_formed, ids. simpl.
    rewrite ids_filter. split.
    + apply NoDup_filter. exact Hnd.
    + apply Forall_forall. intros x Hx. apply list_elem_of_filter in Hx.
      destruct Hx as [_ Hx]. revert x Hx. apply Forall_forall. exact Hall.
Qed.

Lemma perform_all_well_formed (cs : list call) (d : db) :
  well_formed d -> well_formed (perform_all cs d).2.
Proof.
  revert d. induction cs as [|c cs IH]; intros d Hd; [exact Hd|].
  simpl. pose proof (perform_well_formed c d Hd) as H1.
  destruct (perform c d) as [r d1]. specialize (IH d1 H1).
  destruct (perform_all cs d1) as [rs d2]. exact IH.
Qed.

(** *** The ids that creation gives out *)




(** *** Listing *)

#[global] Instance id_desc_trans : Transitive id_desc.
Proof. intros a b c. unfold id_desc. lia. Qed.

#[global] Instance id_desc_total : Total id_desc.
Proof. intros a b. unfold id_desc. lia. Qed.

Lemma sorted_desc_strict (l : list task) :
  StronglySorted id_desc l -> NoDup (map id l) ->
  StronglySorted (fun a b => id b < id a) l.
Proof.
  induction 1 as [|a l Hs IH Hall]; simpl; intros Hnd; [constructor|].
  apply NoDup_cons in Hnd. destruct Hnd as [Hnin Hnd].
  constructor; [auto|]. apply Forall_forall. intros b Hb.
  assert (Hle : id_desc a b) by (revert b Hb; apply Forall_forall; exact Hall).
  assert (Hne : id b <> id a).
  { intros E. apply Hnin. rewrite <- E. apply list_elem_of_In, in_map.
    apply list_elem_of_In. exact Hb. }
  unfold id_desc in Hle. lia.
Qed.

Lemma filter_split_length (i : Z) (rows : list task) :
  (length (filter (fun r => has_id i r = true) rows) +
   length (filter (fun r => has_id i r = false) rows) = length rows)%nat.
Proof.
  induction rows as [|r rows IH]; [reflexivity|].
  rewrite !filter_cons. destruct (has_id i r) eqn:E;
    repeat case_decide; try congruence; simpl; lia.
Qed.

Lemma filter_unique (i : Z) (rows : list task) :
  NoDup (map id rows) ->
  (length (filter (fun r => has_id i r = true) rows) <= 1)%nat.
Proof.
  induction rows as [|r rows IH]; simpl; intros Hnd; [lia|].
  apply NoDup_cons in Hnd. destruct Hnd as [Hnin Hnd].
  rewrite filter_cons. case_decide as Hr; [|auto].
  assert (Hf : find (has_id i) rows = None).
  { apply find_fresh. intros x Hx E. apply Hnin.
    unfold has_id in Hr. apply Z.eqb_eq in Hr. rewrite Hr, <- E.
    apply list_elem_of_In, in_map. exact Hx. }
  apply filter_missing in Hf. destruct Hf as [_ ->]. simpl. lia.
Qed.

Lemma length_patch_rows (i : Z) (t ds dd s : pyval) (rows : list task) :
  length (patch_rows i t ds dd s rows) = length rows.
Proof. unfold patch_rows. apply length_map. Qed.

Lemma perform_count (c : call) (d : db) :
  well_formed d ->
  Z.of_nat (length (tasks (perform c d).2)) =
  Z.of_nat (length (tasks d))
  + (if is_created (perform c d).1 then 1 else 0)
  - (if is_deleted (perform c d).1 then 1 else 0).
Proof.
  intros [Hnd _]. pose proof (perform_cases c d) as H.
  destruct (perform c d) as [[i|l|o|b|b|e] d']; simpl;
    try (subst; lia).
  - destruct H as (r & _ & _ & _ & ->). simpl. rewrite length_app. simpl. lia.
  - destruct H as (i & t & ds & dd & s & ->). simpl.
    rewrite length_patch_rows. lia.
  - destruct H as (i & _ & Hb & ->). simpl.
    pose proof (filter_split_length i (tasks d)) as Hsplit.
    pose proof (filter_unique i (tasks d) Hnd) as Hu.
    destruct b.
    + symmetry in Hb. apply Z.ltb_lt in Hb. lia.
    + symmetry in Hb. apply Z.ltb_ge in Hb. lia.
Qed.

Lemma perform_all_count (cs : list call) (d : db) :
  well_formed d ->
  Z.of_nat (length (tasks (perform_all cs d).2)) =
  Z.of_nat (length (tasks d))
  + count is_created (perform_all cs d).1
  - count is_deleted (perform_all cs d).1.
Proof.
  revert d. induction cs as [|c cs IH]; intros d Hd; simpl; [lia|].
  pose proof (perform_count c d Hd) as Hc.
  pose proof (perform_well_formed c d Hd) as Hw.
  destruct (perform c d) as [r d1]. specialize (IH d1 Hw).
  destruct (perform_all cs d1) as [rs d2]. simpl in *. lia.
Qed.

(** C6.  After any sequence of calls on the empty table, [get_all_tasks]
    succeeds and returns the stored records, all of them and each once,
    in strictly descending order of id; their number is the number of
    creations that succeeded minus the number of deletions that removed
    a row.  On the empty table it returns the empty list. *)
Theorem list_all_descending (cs : list call) :
  exists l,
    get_all_tasks (perform_all cs empty_db).2 =
    (Ok l, (perform_all cs empty_db).2) /\
    Permutation l (tasks (perform_all cs empty_db).2) /\
    StronglySorted (fun a b => id b < id a) l /\
    Z.of_nat (length l) =
    count is_created (perform_all cs empty_db).1
    - count is_deleted (perform_all cs empty_db).1 /\
    get_all_tasks empty_db = (Ok [], empty_db).
Proof.
  pose proof (perform_all_well_formed cs empty_db well_formed_empty) as Hw.
  pose proof (perform_all_count cs empty_db well_formed_empty) as Hc.
  set (d := (perform_all cs empty_db).2) in *.
  exists (merge_sort id_desc (tasks d)).
  pose proof (merge_sort_Permutation id_desc (tasks d)) as Hp.
  split; [apply get_all_tasks_eq|]. split; [exact Hp|]. split; [|split].
  - apply sorted_desc_strict.
    + apply StronglySorted_merge_sort; apply _.
    + destruct Hw as [Hnd _].
      assert (Hm : Permutation (map id (merge_sort id_desc (tasks d)))
                     (map id (tasks d))) by (apply Permutation_map; exact Hp).
      rewrite Hm. exact Hnd.
  - rewrite (Permutation_length Hp). simpl in Hc. lia.
  - reflexivity.
Qed.

(** ** Requests: what the handlers do to the file *)

Lemma to_result_state {A} (f : A -> result) (x : outcome A * db) :
  (to_result f x).2 = x.2.
Proof. destruct x as [[a|e] d]; reflexivity. Qed.

Lemma get_task_by_id_state (i : Z) (d : db) : (get_task_by_id i d).2 = d.
Proof. rewrite get_task_by_id_eq. reflexivity. Qed.

Lemma api_create_task_state (data : pyval) (d : db) :
  (api_create_task data d).2 = d \/
  exists t ds dd s, (api_create_task data d).2 = (create_task t ds dd s d).2.
Proof.
  unfold api_create_task. unfold_handler.
  repeat (case_match; simplify_eq/=; auto).
  all: right; eexists _, _, _, _;
    match goal with H : create_task _ _ _ _ _ = _ |- _ => rewrite H end;
    simpl; try reflexivity.
  all: match goal with
       | H : get_task_by_id ?i ?d1 = (_, ?d2) |- _ =>
           pose proof (get_task_by_id_state i d1) as E; rewrite H in E;
           simpl in E; congruence
       end.
Qed.

Lemma api_update_task_state (i : Z) (data : pyval) (d : db) :
  (api_update_task i data d).2 = d \/
  exists items,
    data = PDict items /\
    (api_update_task i data d).2 =
    {| tasks := patch_rows i (dict_get_or items "title" PNone)
                  (dict_get_or items "description" PNone)
                  (dict_get_or items "due_date" PNone)
                  (dict_get_or items "status" PNone) (tasks d);
       seq := seq d |}.
Proof.
  destruct data as [| | | | |items]; try (left; reflexivity).
  - left. unfold api_update_task, catch_all. simpl. destruct (negb b); reflexivity.
  - left. unfold api_update_task, catch_all. simpl.
    destruct (negb (negb (z =? 0))); reflexivity.
  - left. unfold api_update_task, catch_all. simpl.
    destruct (negb (negb (String.eqb s ""))); reflexivity.
  - left. unfold api_update_task, catch_all. simpl. destruct l; reflexivity.
  - destruct items as [|p l]; [left; reflexivity|].
    rewrite api_update_task_eq by discriminate. cbv zeta.
    destruct (negb (is_none _) && negb (py_in _ _)); [left; reflexivity|].
    destruct (title_blank _) as [[|]|]; try (left; reflexivity).
    rewrite update_task_eq.
    destruct (int64_range i); [|left; reflexivity].
    destruct (find (has_id i) (tasks d)); [|left; reflexivity].
    destruct (bind_params _); [|left; reflexivity].
    right. exists (p :: l). split; [reflexivity|].
    rewrite get_task_by_id_eq. destruct (int64_range i); reflexivity.
Qed.

(** The state after a request is the state before it, or the state
    after one call to the data-access layer. *)
Lemma serve_state (req : request) (d : db) :
  (serve req d).2 = d \/ exists c, (serve req d).2 = (perform c d).2.
Proof.
  destruct req as [data| |i|i data|i]; simpl.
  - destruct (api_create_task_state data d) as [H|(t & ds & dd & s & H)];
      [left; exact H|].
    right. exists (Create t ds dd s). simpl. rewrite to_result_state. exact H.
  - left. reflexivity.
  - left. destruct (i <? 0); [reflexivity|].
    unfold api_get_task, catch_all, bind, ret. rewrite get_task_by_id_eq.
    destruct (int64_range i); [|reflexivity].
    destruct (find (has_id i) (tasks d)); reflexivity.
  - destruct (i <? 0); [left; reflexivity|].
    destruct (api_update_task_state i data d) as [H|(items & -> & H)];
      [left; exact H|].
    destruct (int64_range i) eqn:Hr.
    + destruct (find (has_id i) (tasks d)) eqn:Hf.
      * destruct (bind_params
                    (set_clauses (dict_get_or items "title" PNone)
                       (dict_get_or items "description" PNone)
                       (dict_get_or items "due_date" PNone)
                       (dict_get_or items "status" PNone)).2) eqn:Hb.
        -- right. eexists (Update i _ _ _ _). simpl.
           rewrite to_result_state, update_task_eq, Hr, Hf, Hb. exact H.
        -- left. revert H. destruct items as [|p l]; [intros; reflexivity|].
           rewrite api_update_task_eq by discriminate. cbv zeta.
           intros _.
           destruct (negb (is_none _) && negb (py_in _ _)); [reflexivity|].
           destruct (title_blank _) as [[|]|]; try reflexivity.
           rewrite update_task_eq, Hr, Hf, Hb. reflexivity.
      * left. revert H. destruct items as [|p l]; [intros; reflexivity|].
        rewrite api_update_task_eq by discriminate. cbv zeta. intros _.
        destruct (negb (is_none _) && negb (py_in _ _)); [reflexivity|].
        destruct (title_blank _) as [[|]|]; try reflexivity.
        rewrite update_task_eq, Hr, Hf. reflexivity.
    + left. revert H. destruct items as [|p l]; [intros; reflexivity|].
      rewrite api_update_task_eq by discriminate. cbv zeta. intros _.
      destruct (negb (is_none _) && negb (py_in _ _)); [reflexivity|].
      destruct (title_blank _) as [[|]|]; try reflexivity.
      rewrite update_task_eq, Hr. reflexivity.
  - destruct (i <? 0); [left; reflexivity|].
    right. exists (Delete i). simpl. rewrite to_result_state.
    unfold api_delete_task, catch_all, bind, ret.
    destruct (delete_task i d) as [[[|]|e] d1]; reflexivity.
Qed.

Lemma serve_well_formed (req : request) (d : db) :
  well_formed d -> well_formed (serve req d).2.
Proof.
  intros Hd. destruct (serve_state req d) as [->|[c ->]]; [exact Hd|].
  apply perform_well_formed. exact Hd.
Qed.

Lemma serve_all_well_formed (reqs : list request) (d : db) :
  well_formed d -> well_formed (serve_all reqs d).2.
Proof.
  revert d. induction reqs as [|q reqs IH]; intros d Hd; [exact Hd|].
  simpl. pose proof (serve_well_formed q d Hd) as H1.
  destruct (serve q d) as [r d1]. specialize (IH d1 H1).
  destruct (serve_all reqs d1) as [rs d2]. exact IH.
Qed.

(** ** Null and absent fields of a PUT *)





Lemma find_filter (i j : Z) (rows : list task) :
  find (has_id j) (filter (fun r => has_id i r = false) rows) =
  if j =? i then None else find (has_id j) rows.
Proof.
  induction rows as [|r rows IH]; simpl.
  - destruct (j =? i); reflexivity.
  - rewrite filter_cons. case_decide as Hr; simpl; rewrite IH.
    + destruct (Z.eqb_spec j i) as [->|N].
      * rewrite Hr. reflexivity.
      * reflexivity.
    + destruct (Z.eqb_spec j i) as [->|N].
      * destruct (has_id i r); [reflexivity|congruence].
      * destruct (has_id j r) eqn:Hj; [|reflexivity].
        exfalso. unfold has_id in *. destruct (Z.eqb_spec (id r) i); lia.
Qed.






(** ** Worked runs *)

(** The scenario of the specification: create, fetch, complete, delete,
    fetch again. *)
Example end_to_end :
  (serve_all
     [POST_tasks (PDict [("title", PStr "Buy milk")]);
      GET_task 1;
      PUT_task 1 (PDict [("status", PStr "completed")]);
      DELETE_task 1;
      GET_task 1] empty_db).1 =
  [mk_response 201 (BTask (mk_task 1 "Buy milk" None None "pending"));
   mk_response 200 (BTask (mk_task 1 "Buy milk" None None "pending"));
   mk_response 200 (BTask (mk_task 1 "Buy milk" None None "completed"));
   mk_response 200 (BMessage "Task deleted successfully");
   mk_response 404 (BError "Task not found")].
Proof. reflexivity. Qed.

(** Three creations and one deletion: two records, the newer first, and
    the id of the deleted row is not given out again. *)
Example create_delete_list :
  (perform_all
     [Create (PStr "a") PNone PNone (PStr "pending");
      Create (PStr "b") PNone PNone (PStr "pending");
      Delete 2;
      Create (PStr "c") PNone PNone (PStr "pending");
      ListAll] empty_db).1 =
  [Created 1; Created 2; Deleted true; Created 3;
   Listed [mk_task 3 "c" None None "pending";
           mk_task 1 "a" None None "pending"]].
Proof. reflexivity. Qed.

(** A body that is the empty object is refused before its fields are
    read, so it is not a PUT "with no field". *)
Example put_empty_object :
  api_update_task 1 (PDict [])
    (mk_db [mk_task 1 "a" None None "pending"] 1) =
  (mk_response 400 (BError "No data provided"),
   mk_db [mk_task 1 "a" None None "pending"] 1).
Proof. reflexivity. Qed.

(** * Further properties of the handlers *)

(** ** The checks of POST /api/tasks *)

(** [api_create_task] on a body that is a non-empty object. *)
Lemma api_create_task_eq (items : list (string * pyval)) (d : db) :
  items <> [] ->
  api_create_task (PDict items) d =
  let title := dict_get_or items "title" PNone in
  let description := dict_get_or items "description" PNone in
  let due_date := dict_get_or items "due_date" PNone in
  let status := dict_get_or items "status" (PStr "pending") in
  match title_missing title with
  | Raise _ => (server_error, d)
  | Ok true => (mk_response 400 (BError "Title is required"), d)
  | Ok false =>
      if negb (py_in status valid_statuses) then
        (mk_response 400 (BError status_message), d)
      else
        match py_strip title with
        | Raise _ => (server_error, d)
        | Ok stripped =>
            match create_task (PStr stripped) description due_date status d with
            | (Raise _, d1) => (server_error, d1)
            | (Ok i, d1) =>
                match get_task_by_id i d1 with
                | (Raise _, d2) => (server_error, d2)
                | (Ok task, d2) => (mk_response 201 (jsonify_task task), d2)
                end
            end
        end
  end.
Proof.
  intros Hne. destruct items as [|p l]; [congruence|].
  unfold api_create_task, catch_all, bind, lift, ret, py_get.
  cbn [truthy negb]. cbv zeta.
  destruct (title_missing _) as [[|]|]; try reflexivity.
  destruct (negb (py_in _ _)); [reflexivity|].
  destruct (py_strip _) as [stripped|]; [|reflexivity].
  destruct (create_task _ _ _ _ _) as [[i|] d1]; [|reflexivity].
  destruct (get_task_by_id i d1) as [[tk|] d2]; reflexivity.
Qed.

Lemma api_create_task_falsy (data : pyval) (d : db) :
  truthy data = false ->
  api_create_task data d = (mk_response 400 (BError "No data provided"), d).
Proof.
  intros H. unfold api_create_task, catch_all, ret. rewrite H. reflexivity.
Qed.

(** X1.  POST /api/tasks answers 400 and stores nothing, whatever the
    stored state, when the body is missing or falsy (unparsable, null,
    the empty object, the empty list, 0, false, the empty string), or
    when it is an object whose title is absent, null, any other falsy
    value, or a blank string. *)
Theorem create_rejects_missing_title (data : pyval) :
  truthy data = false \/
  (exists items,
      data = PDict items /\ items <> [] /\
      (truthy (dict_get_or items "title" PNone) = false \/
       exists t, dict_get_or items "title" PNone = PStr t /\
                 all_space t = true)) ->
  exists msg, forall d : db,
    api_create_task data d = (mk_response 400 (BError msg), d).
Proof.
  intros [H|(items & -> & Hne & H)].
  - eexists. intros d. apply api_create_task_falsy. exact H.
  - exists "Title is required". intros d.
    rewrite api_create_task_eq by exact Hne. cbv zeta.
    destruct H as [H|(t & -> & H)].
    + unfold title_missing. rewrite H. reflexivity.
    + apply strip_empty_iff in H. unfold title_missing. simpl.
      rewrite H. simpl. destruct (negb (negb (String.eqb t "")));
        reflexivity.
Qed.

Lemma create_rejects_missing_title_witness :
  (exists msg, forall d : db,
      api_create_task (PDict []) d = (mk_response 400 (BError msg), d)) /\
  (exists msg, forall d : db,
      api_create_task (PDict [("description", PStr "x")]) d =
      (mk_response 400 (BError msg), d)) /\
  (exists msg, forall d : db,
      api_create_task (PDict [("title", PStr "  ")]) d =
      (mk_response 400 (BError msg), d)).
Proof.
  split; [|split].
  - apply (create_rejects_missing_title (PDict [])). left. reflexivity.
  - apply (create_rejects_missing_title (PDict [("description", PStr "x")])).
    right. eexists. split; [reflexivity|]. split; [discriminate|].
    left. reflexivity.
  - apply (create_rejects_missing_title (PDict [("title", PStr "  ")])).
    right. eexists. split; [reflexivity|]. split; [discriminate|].
    right. exists "  ". split; reflexivity.
Defined.

Lemma title_missing_str (t : string) :
  all_space t = false -> title_missing (PStr t) = Ok false.
Proof.
  intros H. unfold title_missing. simpl.
  assert (Hs : strip t <> "") by (rewrite strip_empty_iff; congruence).
  assert (Ht : t <> "") by (intros ->; discriminate).
  apply String.eqb_neq in Hs, Ht. rewrite Hs, Ht. reflexivity.
Qed.

(** X2.  POST /api/tasks with a usable title and a status field whose
    value is not one of the three strings answers 400 with the status
    message and stores nothing.  The value may be any JSON value; unlike
    at PUT, a status that is JSON null is refused too. *)
Theorem create_rejects_invalid_status (items : list (string * pyval))
    (t : string) (v : pyval) :
  dict_get items "title" = Some (PStr t) ->
  all_space t = false ->
  dict_get items "status" = Some v ->
  (forall s, In s valid_statuses -> v <> PStr s) ->
  forall d : db,
    api_create_task (PDict items) d =
    (mk_response 400 (BError status_message), d).
Proof.
  intros Ht Hb Hv Hout d.
  rewrite api_create_task_eq by (eapply dict_get_nonempty; eauto).
  cbv zeta. unfold dict_get_or. rewrite Ht, Hv.
  rewrite (title_missing_str t Hb), (py_in_false _ _ Hout). reflexivity.
Qed.

Lemma create_rejects_invalid_status_witness :
  (forall d : db,
      api_create_task (PDict [("title", PStr "a"); ("status", PStr "done")]) d
      = (mk_response 400 (BError status_message), d)) /\
  (forall d : db,
      api_create_task (PDict [("title", PStr "a"); ("status", PNone)]) d
      = (mk_response 400 (BError status_message), d)).
Proof.
  split.
  - apply (create_rejects_invalid_status
             [("title", PStr "a"); ("status", PStr "done")] "a" (PStr "done"));
      try reflexivity.
    simpl. intros s [<-|[<-|[<-|[]]]]; discriminate.
  - apply (create_rejects_invalid_status
             [("title", PStr "a"); ("status", PNone)] "a" PNone);
      try reflexivity.
    intros s _. discriminate.
Defined.

(** X3.  A body that parses to a truthy JSON value other than an object
    (a non-empty list or string, a non-zero number, true) makes both
    POST and PUT answer 500 from the catch-all clause: [data.get] does
    not exist on it.  Nothing is stored. *)
Theorem non_object_body_server_error (data : pyval) (i : Z) (d : db) :
  truthy data = true ->
  (forall items, data <> PDict items) ->
  api_create_task data d = (server_error, d) /\
  api_update_task i data d = (server_error, d).
Proof.
  intros Ht Hn. unfold api_create_task, api_update_task, catch_all, bind,
    lift, ret, py_get. rewrite Ht. simpl.
  destruct data; try (split; reflexivity). exfalso. eapply Hn. reflexivity.
Qed.

Lemma non_object_body_server_error_witness :
  api_create_task (PList [PStr "title"]) empty_db = (server_error, empty_db) /\
  api_update_task 1 (PList [PStr "title"]) empty_db = (server_error, empty_db).
Proof.
  apply (non_object_body_server_error (PList [PStr "title"]) 1 empty_db);
    [reflexivity|discriminate].
Defined.



(** ** DELETE *)

Lemma filter_count_existsb (i : Z) (rows : list task) :
  (0 <? Z.of_nat (length (filter (fun r => has_id i r = true) rows))) =
  existsb (has_id i) rows.
Proof.
  induction rows as [|r rows IH]; [reflexivity|].
  rewrite filter_cons. simpl existsb. destruct (has_id i r) eqn:E.
  - case_decide; [|congruence]. simpl length. simpl orb.
    apply Z.ltb_lt. lia.
  - case_decide; [congruence|]. exact IH.
Qed.

(** [api_delete_task] in one equation. *)
Lemma api_delete_task_eq (i : Z) (d : db) :
  api_delete_task i d =
  if int64_range i then
    ((if existsb (has_id i) (tasks d)
      then mk_response 200 (BMessage "Task deleted successfully")
      else mk_response 404 (BError "Task not found")),
     {| tasks := filter (fun r => has_id i r = false) (tasks d);
        seq := seq d |})
  else (server_error, d).
Proof.
  unfold api_delete_task, catch_all, bind, ret. rewrite delete_task_eq.
  destruct (int64_range i); [|reflexivity].
  rewrite filter_count_existsb.
  destruct (existsb (has_id i) (tasks d)); reflexivity.
Qed.

(** X5.  After a DELETE that answered 200, a GET of the same id answers
    404 and a second DELETE of it answers 404; neither changes the
    state the first DELETE left. *)
Theorem delete_then_get (i : Z) (d : db) :
  code (api_delete_task i d).1 = 200 ->
  api_get_task i (api_delete_task i d).2 =
  (mk_response 404 (BError "Task not found"), (api_delete_task i d).2) /\
  api_delete_task i (api_delete_task i d).2 =
  (mk_response 404 (BError "Task not found"), (api_delete_task i d).2).
Proof.
  rewrite !(api_delete_task_eq i d).
  destruct (int64_range i) eqn:Hr; [|discriminate]. simpl. intros _.
  assert (Hf : find (has_id i)
                 (filter (fun r => has_id i r = false) (tasks d)) = None)
    by (rewrite find_filter, Z.eqb_refl; reflexivity).
  split.
  - unfold api_get_task, catch_all, bind, ret.
    rewrite get_task_by_id_eq, Hr. simpl. rewrite Hf. reflexivity.
  - rewrite api_delete_task_eq, Hr. simpl. rewrite find_existsb, Hf.
    destruct (filter_missing i _ Hf) as [-> _]. reflexivity.
Qed.

Lemma delete_then_get_witness :
  api_get_task 1
    (api_delete_task 1 (mk_db [mk_task 1 "a" None None "pending"] 1)).2 =
  (mk_response 404 (BError "Task not found"),
   (api_delete_task 1 (mk_db [mk_task 1 "a" None None "pending"] 1)).2) /\
  api_delete_task 1
    (api_delete_task 1 (mk_db [mk_task 1 "a" None None "pending"] 1)).2 =
  (mk_response 404 (BError "Task not found"),
   (api_delete_task 1 (mk_db [mk_task 1 "a" None None "pending"] 1)).2).
Proof.
  apply (delete_then_get 1 (mk_db [mk_task 1 "a" None None "pending"] 1)).
  reflexivity.
Defined.

(** X6.  DELETE of an id the storage can bind answers 200 exactly when a
    row with that id is stored (404 otherwise); afterwards no row has
    that id, the row of every other id is the one stored before, and the
    AUTOINCREMENT counter has not moved. *)
Theorem delete_removes_only_that_id (i : Z) (d : db) :
  int64_range i = true ->
  (code (api_delete_task i d).1 = 200 <->
   exists r, find (has_id i) (tasks d) = Some r) /\
  (code (api_delete_task i d).1 = 404 <-> find (has_id i) (tasks d) = None) /\
  find (has_id i) (tasks (api_delete_task i d).2) = None /\
  (forall j, j <> i ->
     find (has_id j) (tasks (api_delete_task i d).2) =
     find (has_id j) (tasks d)) /\
  seq (api_delete_task i d).2 = seq d.
Proof.
  intros Hr. rewrite api_delete_task_eq, Hr, find_existsb. simpl.
  destruct (find (has_id i) (tasks d)) as [r|]; simpl; repeat split;
    try discriminate; eauto.
  all: try (intros [r' Hr']; discriminate).
  all: try (rewrite find_filter, Z.eqb_refl; reflexivity).
  all: intros j Hj; rewrite find_filter;
    destruct (Z.eqb_spec j i); [contradiction|reflexivity].
Qed.

Lemma delete_removes_only_that_id_witness :
  (code (api_delete_task 2
           (mk_db [mk_task 1 "a" None None "pending";
                   mk_task 2 "b" None None "pending"] 2)).1 = 200 <->
   exists r, find (has_id 2)
               (tasks (mk_db [mk_task 1 "a" None None "pending";
                              mk_task 2 "b" None None "pending"] 2)) = Some r)
  /\
  (code (api_delete_task 2
           (mk_db [mk_task 1 "a" None None "pending";
                   mk_task 2 "b" None None "pending"] 2)).1 = 404 <->
   find (has_id 2)
     (tasks (mk_db [mk_task 1 "a" None None "pending";
                    mk_task 2 "b" None None "pending"] 2)) = None) /\
  find (has_id 2)
    (tasks (api_delete_task 2
              (mk_db [mk_task 1 "a" None None "pending";
                      mk_task 2 "b" None None "pending"] 2)).2) = None /\
  (forall j, j <> 2 ->
     find (has_id j)
       (tasks (api_delete_task 2
                 (mk_db [mk_task 1 "a" None None "pending";
                         mk_task 2 "b" None None "pending"] 2)).2) =
     find (has_id j)
       (tasks (mk_db [mk_task 1 "a" None None "pending";
                      mk_task 2 "b" None None "pending"] 2))) /\
  seq (api_delete_task 2
         (mk_db [mk_task 1 "a" None None "pending";
                 mk_task 2 "b" None None "pending"] 2)).2 =
  seq (mk_db [mk_task 1 "a" None None "pending";
              mk_task 2 "b" None None "pending"] 2).
Proof.
  apply (delete_removes_only_that_id 2
           (mk_db [mk_task 1 "a" None None "pending";
                   mk_task 2 "b" None None "pending"] 2)).
  reflexivity.
Defined.

(** ** Every request, case by case *)

Lemma api_create_task_not_object (data : pyval) (d : db) :
  (forall items, data = PDict items -> items = []) ->
  api_create_task data d =
  ((if truthy data then server_error
    else mk_response 400 (BError "No data provided")), d).
Proof.
  intros H. destruct data as [| | | | |items];
    try (unfold api_create_task, catch_all, bind, lift, ret, py_get;
         destruct (truthy _); reflexivity).
  rewrite (H items eq_refl). reflexivity.
Qed.

Lemma api_update_task_not_object (i : Z) (data : pyval) (d : db) :
  (forall items, data = PDict items -> items = []) ->
  api_update_task i data d =
  ((if truthy data then server_error
    else mk_response 400 (BError "No data provided")), d).
Proof.
  intros H. destruct data as [| | | | |items];
    try (unfold api_update_task, catch_all, bind, lift, ret, py_get;
         destruct (truthy _); reflexivity).
  rewrite (H items eq_refl). reflexivity.
Qed.

Lemma object_or_not (data : pyval) :
  (exists items, data = PDict items /\ items <> []) \/
  (forall items, data = PDict items -> items = []).
Proof.
  destruct data as [| | | | |items]; try (right; intros; discriminate).
  destruct items as [|p l].
  - right. intros items [= <-]. reflexivity.
  - left. eexists. split; [reflexivity|discriminate].
Qed.

Lemma db_eta (d : db) : {| tasks := tasks d; seq := seq d |} = d.
Proof. destruct d; reflexivity. Qed.

(** The answer to a request and the state it leaves are of one of seven
    kinds. *)
Lemma serve_outcome (req : request) (d : db) :
  ((serve req d).1 = server_error /\ (serve req d).2 = d) \/
  (exists msg, (serve req d).1 = mk_response 400 (BError msg) /\
               (serve req d).2 = d) \/
  (exists msg, (serve req d).1 = mk_response 404 (BError msg) /\
               (serve req d).2 = d) \/
  (exists l, req = GET_tasks /\
             (serve req d).1 = mk_response 200 (BTasks l) /\
             (serve req d).2 = d) \/
  (exists i r, req = GET_task i /\
               (serve req d).1 = mk_response 200 (BTask r) /\
               (serve req d).2 = d) \/
  (exists data r, req = POST_tasks data /\
                  (serve req d).1 = mk_response 201 (BTask r) /\
                  (serve req d).2 =
                  {| tasks := tasks d ++ [r]; seq := id r |} /\
                  id r = next_rowid d) \/
  (exists i data r, req = PUT_task i data /\
                    (serve req d).1 = mk_response 200 (BTask r) /\
                    length (tasks (serve req d).2) = length (tasks d) /\
                    seq (serve req d).2 = seq d) \/
  (exists i r, req = DELETE_task i /\
               find (has_id i) (tasks d) = Some r /\
               (serve req d).1 =
               mk_response 200 (BMessage "Task deleted successfully") /\
               (serve req d).2 =
               {| tasks := filter (fun x => has_id i x = false) (tasks d);
                  seq := seq d |}).
Proof.
  destruct req as [data| |i|i data|i]; simpl.
  - (* POST *)
    destruct (object_or_not data) as [(items & -> & Hne)|Hno].
    + rewrite api_create_task_eq by exact Hne. cbv zeta.
      destruct (title_missing _) as [[|]|]; [right; left; eauto| |left; auto].
      destruct (negb (py_in _ _)); [right; left; eauto|].
      destruct (py_strip _) as [stripped|]; [|left; auto].
      destruct (create_task _ _ _ _ _) as [[i|e] d1] eqn:Hc.
      * apply create_task_ok in Hc.
        destruct Hc as (vt & vd & vdd & vs & tt & ss & _ & _ & _ & _ & _ & _
                        & Hi & Hle & ->).
        match goal with
        | |- context [(tasks d ++ [?row])%list] => set (r := row)
        end.
        pose proof (get_after_create d r Hi Hle) as Hg. simpl in Hg.
        rewrite Hg. do 5 right. left. exists (PDict items), r. auto.
      * apply create_task_raise in Hc. subst d1. left. auto.
    + rewrite api_create_task_not_object by exact Hno.
      destruct (truthy data); [left; auto|right; left; eauto].
  - (* GET all *)
    do 3 right. left. eexists. repeat split.
  - (* GET one *)
    destruct (i <? 0); [right; right; left; eexists; split; reflexivity|].
    unfold api_get_task, catch_all, bind, ret. rewrite get_task_by_id_eq.
    destruct (int64_range i); [|left; auto].
    destruct (find (has_id i) (tasks d)) as [r|].
    + do 4 right. left. exists i, r. auto.
    + right. right. left. eauto.
  - (* PUT *)
    destruct (i <? 0); [right; right; left; eexists; split; reflexivity|].
    destruct (object_or_not data) as [(items & -> & Hne)|Hno].
    + rewrite api_update_task_eq by exact Hne. cbv zeta.
      destruct (negb (is_none _) && negb (py_in _ _)); [right; left; eauto|].
      destruct (title_blank _) as [[|]|]; [right; left; eauto| |left; auto].
      rewrite update_task_eq.
      destruct (int64_range i) eqn:Hr; [|left; auto].
      destruct (find (has_id i) (tasks d)) as [r0|] eqn:Hf;
        [|right; right; left; eauto].
      destruct (bind_params _); [|left; auto].
      rewrite get_task_by_id_eq, Hr. simpl.
      rewrite find_patch_rows, Z.eqb_refl, Hf. simpl.
      do 6 right. left. eexists i, (PDict items), _.
      split; [reflexivity|]. split; [reflexivity|].
      split; [apply length_patch_rows|reflexivity].
    + rewrite api_update_task_not_object by exact Hno.
      destruct (truthy data); [left; auto|right; left; eauto].
  - (* DELETE *)
    destruct (i <? 0); [right; right; left; eexists; split; reflexivity|].
    rewrite api_delete_task_eq.
    destruct (int64_range i); [|left; auto].
    rewrite find_existsb.
    destruct (find (has_id i) (tasks d)) as [r|] eqn:Hf; simpl.
    + do 7 right. exists i, r. auto.
    + right. right. left. eexists. split; [reflexivity|].
      destruct (filter_missing i _ Hf) as [-> _]. apply db_eta.
Qed.

(** X7.  A request that is answered with an error code (400 or above)
    has changed nothing in the stored state, and a GET never changes
    it, whatever its answer. *)
Theorem errors_have_no_effect (req : request) (d : db) :
  (400 <= code (serve req d).1 -> (serve req d).2 = d) /\
  (match req with
   | GET_tasks | GET_task _ => (serve req d).2 = d
   | _ => True
   end).
Proof.
  destruct (serve_outcome req d)
    as [[E S]|[(m & E & S)|[(m & E & S)|[(l & Q & E & S)|[(i & r & Q & E & S)
       |[(data & r & Q & E & S & _)|[(i & data & r & Q & E & S & _)
       |(i & r & Q & _ & E & S)]]]]]]].
  1-5: split; [intros _; exact S|destruct req; auto].
  all: split; [rewrite E; simpl; lia|rewrite Q; exact I].
Qed.

Lemma errors_have_no_effect_witness :
  (400 <=
   code (serve (PUT_task 1 (PDict [("title", PStr "x");
                                   ("description", PList [])]))
           (mk_db [mk_task 1 "a" None None "pending"] 1)).1 ->
   (serve (PUT_task 1 (PDict [("title", PStr "x");
                              ("description", PList [])]))
      (mk_db [mk_task 1 "a" None None "pending"] 1)).2 =
   mk_db [mk_task 1 "a" None None "pending"] 1) /\
  True.
Proof.
  apply (errors_have_no_effect
           (PUT_task 1 (PDict [("title", PStr "x");
                               ("description", PList [])]))
           (mk_db [mk_task 1 "a" None None "pending"] 1)).
Defined.

(** X8.  Every answer of the API has one of the codes 200, 201, 400,
    404, 500; an answer with code 400 or more carries an error message
    and nothing else; and a 500 always carries the same generic message,
    whatever went wrong. *)
Theorem response_shape (req : request) (d : db) :
  In (code (serve req d).1) [200; 201; 400; 404; 500] /\
  (400 <= code (serve req d).1 ->
   exists msg, payload (serve req d).1 = BError msg) /\
  (code (serve req d).1 = 500 ->
   payload (serve req d).1 = BError "Internal server error").
Proof.
  destruct (serve_outcome req d)
    as [[E _]|[(m & E & _)|[(m & E & _)|[(l & _ & E & _)|[(i & r & _ & E & _)
       |[(data & r & _ & E & _)|[(i & data & r & _ & E & _)
       |(i & r & _ & _ & E & _)]]]]]]];
    rewrite E; simpl; repeat split; eauto 10; try discriminate; try lia.
Qed.

(** ** What the API lets into the table *)

Lemma strip_not_blank (t : string) :
  strip t <> "" -> all_space (strip t) = false.
Proof.
  intros H. destruct (all_space t) eqn:E.
  - exfalso. apply H. apply strip_empty_iff. exact E.
  - destruct (lstrip_not_all_space t E) as (c & s' & Hl & Hc).
    unfold strip. rewrite Hl. simpl.
    destruct (rstrip s'); rewrite ?Hc; simpl; rewrite Hc; reflexivity.
Qed.

Lemma title_blank_ok (v : pyval) :
  title_blank v = Ok false ->
  v = PNone \/ exists t, v = PStr t /\ all_space t = false.
Proof.
  destruct v; try discriminate; [left; reflexivity|].
  intros H. right. exists s. split; [reflexivity|].
  apply title_blank_str in H. destruct (all_space s) eqn:E; [|reflexivity].
  exfalso. apply H. apply strip_empty_iff. exact E.
Qed.

Lemma status_check_ok (v : pyval) :
  negb (is_none v) && negb (py_in v valid_statuses) = false ->
  v = PNone \/ exists s, v = PStr s /\ In s valid_statuses.
Proof.
  intros H. destruct (py_in v valid_statuses) eqn:E.
  - right. apply py_in_str. exact E.
  - left. destruct v; try discriminate. reflexivity.
Qed.

Lemma patched_valid (t ds dd s : pyval) (r : task) :
  valid_row r ->
  title_blank t = Ok false ->
  negb (is_none s) && negb (py_in s valid_statuses) = false ->
  valid_row (patched t ds dd s r).
Proof.
  intros [Ht Hs] Hb Hst. apply title_blank_ok in Hb.
  apply status_check_ok in Hst. unfold valid_row, patched. simpl.
  destruct Hb as [->|(x & -> & Hx)], Hst as [->|(y & -> & Hy)];
    simpl; auto.
Qed.

(** What a PUT that changed the state passed. *)
Lemma api_update_task_effect (i : Z) (data : pyval) (d : db) :
  (api_update_task i data d).2 = d \/
  exists items,
    data = PDict items /\
    title_blank (dict_get_or items "title" PNone) = Ok false /\
    negb (is_none (dict_get_or items "status" PNone))
    && negb (py_in (dict_get_or items "status" PNone) valid_statuses) = false /\
    (api_update_task i data d).2 =
    {| tasks := patch_rows i (dict_get_or items "title" PNone)
                  (dict_get_or items "description" PNone)
                  (dict_get_or items "due_date" PNone)
                  (dict_get_or items "status" PNone) (tasks d);
       seq := seq d |}.
Proof.
  destruct (object_or_not data) as [(items & -> & Hne)|Hno].
  - rewrite api_update_task_eq by exact Hne. cbv zeta.
    destruct (negb (is_none _) && negb (py_in _ _)) eqn:Hst;
      [left; reflexivity|].
    destruct (title_blank _) as [[|]|] eqn:Hb; try (left; reflexivity).
    rewrite update_task_eq.
    destruct (int64_range i) eqn:Hr; [|left; reflexivity].
    destruct (find (has_id i) (tasks d)); [|left; reflexivity].
    destruct (bind_params _); [|left; reflexivity].
    right. exists items. repeat split; auto.
    rewrite get_task_by_id_eq, Hr. reflexivity.
  - left. rewrite api_update_task_not_object by exact Hno. reflexivity.
Qed.

(** What a POST that changed the state stored. *)
Lemma api_create_task_effect (data : pyval) (d : db) :
  (api_create_task data d).2 = d \/
  exists r,
    valid_row r /\ id r = next_rowid d /\ id r <= max_rowid /\
    (api_create_task data d).2 = {| tasks := tasks d ++ [r]; seq := id r |}.
Proof.
  destruct (object_or_not data) as [(items & -> & Hne)|Hno].
  - rewrite api_create_task_eq by exact Hne. cbv zeta.
    destruct (dict_get_or items "title" PNone) as [| | |t| |] eqn:Ht;
      try solve [left; unfold title_missing, py_strip; simpl;
                 try reflexivity; repeat (case_match; try reflexivity)].
    unfold title_missing, py_strip. simpl.
    destruct (String.eqb t ""); [left; reflexivity|]. simpl.
    destruct (String.eqb_spec (strip t) "") as [|Hs]; [left; reflexivity|].
    simpl.
    destruct (py_in _ _) eqn:Hst; [|left; reflexivity]. simpl.
    destruct (create_task _ _ _ _ _) as [[i|e] d1] eqn:Hc.
    + apply create_task_ok in Hc.
      destruct Hc as (vt & vd & vdd & vs & tt & ss & Bt & _ & _ & Bs & At & As
                      & Hi & Hle & ->).
      apply py_in_str in Hst. destruct Hst as (s & Es & Hin).
      rewrite Es in Bs. simpl in Bt, Bs. injection Bt as <-.
      injection Bs as <-. simpl in At, As. injection At as <-.
      injection As as <-.
      match goal with
      | |- context [(tasks d ++ [?row])%list] => set (r := row)
      end.
      pose proof (get_after_create d r Hi Hle) as Hg. simpl in Hg.
      rewrite Hg. right. exists r. repeat split; auto.
      * apply strip_not_blank. exact Hs.
      * simpl. lia.
    + apply create_task_raise in Hc. subst d1. left. reflexivity.
  - left. rewrite api_create_task_not_object by exact Hno. reflexivity.
Qed.

Lemma serve_valid_rows (req : request) (d : db) :
  Forall valid_row (tasks d) -> Forall valid_row (tasks (serve req d).2).
Proof.
  intros H. destruct req as [data| |i|i data|i]; simpl.
  - destruct (api_create_task_effect data d) as [->|(r & Hv & _ & _ & ->)];
      [exact H|]. simpl. apply Forall_app. split; [exact H|].
    constructor; [exact Hv|constructor].
  - exact H.
  - destruct (i <? 0); [exact H|].
    unfold api_get_task, catch_all, bind, ret. rewrite get_task_by_id_eq.
    destruct (int64_range i); [|exact H].
    destruct (find (has_id i) (tasks d)); exact H.
  - destruct (i <? 0); [exact H|].
    destruct (api_update_task_effect i data d)
      as [->|(items & -> & Hb & Hst & ->)]; [exact H|]. simpl.
    unfold patch_rows. apply List.Forall_forall. intros x Hx.
    apply in_map_iff in Hx. destruct Hx as (r & <- & Hr).
    assert (Hv : valid_row r)
      by (revert r Hr; apply List.Forall_forall; exact H).
    destruct (has_id i r); [|exact Hv]. apply patched_valid; assumption.
  - destruct (i <? 0); [exact H|]. rewrite api_delete_task_eq.
    destruct (int64_range i); [|exact H]. simpl.
    apply Forall_forall. intros x Hx. apply list_elem_of_filter in Hx.
    destruct Hx as [_ Hx]. revert x Hx. apply Forall_forall. exact H.
Qed.

(** X9.  In every state reached from the empty table by requests to the
    API, each stored task has a title that is not blank (not empty, not
    whitespace only) and a status that is one of "pending",
    "in_progress", "completed". *)
Theorem stored_rows_valid (reqs : list request) :
  Forall valid_row (tasks (serve_all reqs empty_db).2).
Proof.
  assert (H : forall d, Forall valid_row (tasks d) ->
                        Forall valid_row (tasks (serve_all reqs d).2)).
  { induction reqs as [|q reqs IH]; intros d Hd; [exact Hd|]. simpl.
    pose proof (serve_valid_rows q d Hd) as H1.
    destruct (serve q d) as [resp d1]. specialize (IH d1 H1).
    destruct (serve_all reqs d1) as [rs d2]. exact IH. }
  apply H. constructor.
Qed.

(** ** Listing and fetching through the API *)

Lemma serve_seq_bounded (req : request) (d : db) :
  seq d <= max_rowid -> seq (serve req d).2 <= max_rowid.
Proof.
  intros H. destruct (serve_state req d) as [->|[c ->]]; [exact H|].
  pose proof (perform_cases c d) as Hc.
  destruct (perform c d) as [[i|l|o|b|b|e] d']; simpl;
    try (subst; exact H).
  - destruct Hc as (r & _ & _ & Hle & ->). exact Hle.
  - destruct Hc as (i & t & ds & dd & s & ->). exact H.
  - destruct Hc as (i & _ & _ & ->). exact H.
Qed.

Lemma serve_all_seq_bounded (reqs : list request) (d : db) :
  seq d <= max_rowid -> seq (serve_all reqs d).2 <= max_rowid.
Proof.
  revert d. induction reqs as [|q reqs IH]; intros d Hd; [exact Hd|].
  simpl. pose proof (serve_seq_bounded q d Hd) as H1.
  destruct (serve q d) as [r d1]. specialize (IH d1 H1).
  destruct (serve_all reqs d1) as [rs d2]. exact IH.
Qed.

Lemma find_unique (rows : list task) (r : task) :
  NoDup (map id rows) -> In r rows -> find (has_id (id r)) rows = Some r.
Proof.
  induction rows as [|a rows IH]; simpl; intros Hnd Hin; [contradiction|].
  apply NoDup_cons in Hnd. destruct Hnd as [Hnin Hnd].
  destruct Hin as [->|Hin].
  - unfold has_id. rewrite Z.eqb_refl. reflexivity.
  - unfold has_id at 1. destruct (Z.eqb_spec (id a) (id r)) as [E|_].
    + exfalso. apply Hnin. rewrite E. apply list_elem_of_In, in_map.
      exact Hin.
    + apply IH; assumption.
Qed.

(** X10.  In every state reached through the API, each record that
    GET /api/tasks lists can be fetched by its id, and GET
    /api/tasks/<id> then answers 200 with that very record: ids are
    never shared by two stored tasks and never leave the range the
    storage can bind. *)
Theorem listed_is_retrievable (reqs : list request) (l : list task)
    (r : task) :
  (api_get_all_tasks (serve_all reqs empty_db).2).1 =
  mk_response 200 (BTasks l) ->
  In r l ->
  api_get_task (id r) (serve_all reqs empty_db).2 =
  (mk_response 200 (BTask r), (serve_all reqs empty_db).2).
Proof.
  pose proof (serve_all_well_formed reqs empty_db well_formed_empty)
    as [Hnd Hall].
  pose proof (serve_all_seq_bounded reqs empty_db) as Hseq.
  set (d := (serve_all reqs empty_db).2) in *.
  intros Hl Hin. injection Hl as <-.
  assert (Hin' : In r (tasks d)).
  { eapply Permutation_in;
      [exact (merge_sort_Permutation id_desc (tasks d))|exact Hin]. }
  assert (Hid : 0 < id r <= seq d).
  { rewrite Forall_forall in Hall. apply Hall.
    apply list_elem_of_In, in_map. exact Hin'. }
  assert (Hr : int64_range (id r) = true).
  { unfold int64_range. apply andb_true_intro.
    assert (seq d <= max_rowid) by (apply Hseq; unfold max_rowid; simpl; lia).
    unfold max_rowid in *. split; apply Z.leb_le; lia. }
  unfold api_get_task, catch_all, bind, ret.
  rewrite get_task_by_id_eq, Hr, (find_unique _ _ Hnd Hin'). reflexivity.
Qed.

Lemma listed_is_retrievable_witness :
  api_get_task (id (mk_task 1 "a" None None "pending"))
    (serve_all [POST_tasks (PDict [("title", PStr "a")]);
                POST_tasks (PDict [("title", PStr "b")])] empty_db).2 =
  (mk_response 200 (BTask (mk_task 1 "a" None None "pending")),
   (serve_all [POST_tasks (PDict [("title", PStr "a")]);
               POST_tasks (PDict [("title", PStr "b")])] empty_db).2).
Proof.
  apply (listed_is_retrievable
           [POST_tasks (PDict [("title", PStr "a")]);
            POST_tasks (PDict [("title", PStr "b")])]
           [mk_task 2 "b" None None "pending";
            mk_task 1 "a" None None "pending"]
           (mk_task 1 "a" None None "pending"));
    [reflexivity|right; left; reflexivity].
Defined.

Lemma serve_net_change (req : request) (d : db) :
  well_formed d ->
  Z.of_nat (length (tasks (serve req d).2)) =
  Z.of_nat (length (tasks d)) + net_change req (serve req d).1.
Proof.
  intros [Hnd _].
  destruct (serve_outcome req d)
    as [[E S]|[(m & E & S)|[(m & E & S)|[(l & Q & E & S)|[(i & r & Q & E & S)
       |[(data & r & Q & E & S & _)|[(i & data & r & Q & E & S & _)
       |(i & r & Q & Hf & E & S)]]]]]]];
    rewrite ?S, E.
  1-3: destruct req; simpl; lia.
  - rewrite Q. simpl. lia.
  - rewrite Q. simpl. lia.
  - rewrite Q. simpl. rewrite length_app. simpl. lia.
  - rewrite Q. simpl. lia.
  - rewrite Q. simpl.
    pose proof (filter_split_length i (tasks d)) as Hsplit.
    pose proof (filter_unique i (tasks d) Hnd) as Hu.
    pose proof (filter_count_existsb i (tasks d)) as Hc.
    rewrite find_existsb, Hf in Hc. apply Z.ltb_lt in Hc. lia.
Qed.

Lemma serve_all_net_created (reqs : list request) (d : db) :
  well_formed d ->
  Z.of_nat (length (tasks (serve_all reqs d).2)) =
  Z.of_nat (length (tasks d)) + net_created reqs (serve_all reqs d).1.
Proof.
  revert d. induction reqs as [|q reqs IH]; intros d Hd; simpl; [lia|].
  pose proof (serve_net_change q d Hd) as Hc.
  pose proof (serve_well_formed q d Hd) as Hw.
  destruct (serve q d) as [r d1]. specialize (IH d1 Hw).
  destruct (serve_all reqs d1) as [rs d2]. simpl in *. lia.
Qed.

(** X11.  After any sequence of requests on the empty table, GET
    /api/tasks answers 200 and leaves the state as it is; the list it
    returns holds every stored task once, in strictly descending order
    of id, and its length is the number of POST requests that were
    answered 201 minus the number of DELETE requests that were answered
    200. *)
Theorem api_list_all (reqs : list request) :
  exists l,
    api_get_all_tasks (serve_all reqs empty_db).2 =
    (mk_response 200 (BTasks l), (serve_all reqs empty_db).2) /\
    Permutation l (tasks (serve_all reqs empty_db).2) /\
    StronglySorted (fun a b => id b < id a) l /\
    Z.of_nat (length l) = net_created reqs (serve_all reqs empty_db).1.
Proof.
  pose proof (serve_all_well_formed reqs empty_db well_formed_empty) as Hw.
  pose proof (serve_all_net_created reqs empty_db well_formed_empty) as Hc.
  set (d := (serve_all reqs empty_db).2) in *.
  exists (merge_sort id_desc (tasks d)).
  pose proof (merge_sort_Permutation id_desc (tasks d)) as Hp.
  split; [reflexivity|]. split; [exact Hp|]. split.
  - apply sorted_desc_strict.
    + apply StronglySorted_merge_sort; apply _.
    + destruct Hw as [Hnd _].
      assert (Hm : Permutation (map id (merge_sort id_desc (tasks d)))
                     (map id (tasks d))) by (apply Permutation_map; exact Hp).
      rewrite Hm. exact Hnd.
  - rewrite (Permutation_length Hp). simpl in Hc. lia.
Qed.

(** ** More on PUT *)



(** X13.  PUT with a title that is neither null nor a string (a number,
    a boolean, a list, an object; also 0, false and the empty list) and
    a status that passes its check is answered 500, not 400, and nothing
    is stored: [title.strip()] is called on every title that is not
    None. *)
Theorem put_non_string_title (i : Z) (items : list (string * pyval))
    (v : pyval) (d : db) :
  dict_get items "title" = Some v ->
  v <> PNone ->
  (forall t, v <> PStr t) ->
  (dict_get_or items "status" PNone = PNone \/
   py_in (dict_get_or items "status" PNone) valid_statuses = true) ->
  api_update_task i (PDict items) d = (server_error, d).
Proof.
  intros Hv Hn Hs Hst.
  rewrite api_update_task_eq by (eapply dict_get_nonempty; eauto).
  cbv zeta.
  assert (E : negb (is_none (dict_get_or items "status" PNone))
              && negb (py_in (dict_get_or items "status" PNone)
                         valid_statuses) = false).
  { destruct Hst as [->| ->]; [reflexivity|]. apply andb_false_r. }
  rewrite E. unfold dict_get_or at 1. rewrite Hv.
  destruct v; try reflexivity; [congruence|]. exfalso. eapply Hs. reflexivity.
Qed.

Lemma put_non_string_title_witness :
  api_update_task 1 (PDict [("title", PInt 0)])
    (mk_db [mk_task 1 "a" None None "pending"] 1) =
  (server_error, mk_db [mk_task 1 "a" None None "pending"] 1).
Proof.
  apply (put_non_string_title 1 [("title", PInt 0)] (PInt 0));
    [reflexivity|discriminate|discriminate|left; reflexivity].
Defined.

Lemma bind_params_raise (t ds dd s : pyval) (e : exn) :
  bind_param ds = Raise e \/ bind_param dd = Raise e ->
  exists e', bind_params (set_clauses t ds dd s).2 = Raise e'.
Proof.
  intros H.
  assert (Hn : forall v, is_none v = true -> bind_param v = Ok SqlNull)
    by (intros v Hv; destruct v; try discriminate; reflexivity).
  unfold set_clauses.
  destruct (is_none t) eqn:Et, (is_none ds) eqn:Ed,
    (is_none dd) eqn:Edd, (is_none s) eqn:Es; simpl;
    try (apply Hn in Ed); try (apply Hn in Edd);
    repeat match goal with
      | |- context [bind_param ?v] =>
          let B := fresh "B" in destruct (bind_param v) eqn:B
      end;
    eauto; exfalso; destruct H; congruence.
Qed.

(** X14.  PUT on a stored task with a body that passes the checks but
    holds a description or a due_date that the storage cannot bind (a
    list, an object, an integer beyond 64 bits) is answered 500, and
    the update is all or nothing: the row keeps every field it had,
    also those for which the body held a good value. *)
Theorem put_unbindable_field (i : Z) (items : list (string * pyval))
    (d : db) (r : task) (e : exn) :
  get_task_by_id i d = (Ok (Some r), d) ->
  passes_validation (PDict items) = true ->
  bind_param (dict_get_or items "description" PNone) = Raise e \/
  bind_param (dict_get_or items "due_date" PNone) = Raise e ->
  api_update_task i (PDict items) d = (server_error, d).
Proof.
  intros Hg Hv Hb. apply get_task_by_id_some in Hg.
  destruct Hg as (Hr & Hf & _).
  destruct (passes_validation_inv _ Hv) as (items' & [= <-] & Hne & Hs & Ht).
  rewrite api_update_task_eq by exact Hne. cbv zeta.
  assert (E : negb (is_none (dict_get_or items "status" PNone))
              && negb (py_in (dict_get_or items "status" PNone)
                         valid_statuses) = false).
  { destruct (is_none _); [reflexivity|]. simpl in Hs |- *.
    rewrite Hs. reflexivity. }
  rewrite E, Ht, update_task_eq, Hr, Hf.
  destruct (bind_params_raise (dict_get_or items "title" PNone) _ _
              (dict_get_or items "status" PNone) e Hb) as [e' ->].
  reflexivity.
Qed.

Lemma put_unbindable_field_witness :
  api_update_task 1
    (PDict [("title", PStr "Tea"); ("description", PList [PStr "x"])])
    (mk_db [mk_task 1 "Buy milk" None None "pending"] 1) =
  (server_error, mk_db [mk_task 1 "Buy milk" None None "pending"] 1).
Proof.
  apply (put_unbindable_field 1
           [("title", PStr "Tea"); ("description", PList [PStr "x"])]
           (mk_db [mk_task 1 "Buy milk" None None "pending"] 1)
           (mk_task 1 "Buy milk" None None "pending") InterfaceError);
    [reflexivity|reflexivity|left; reflexivity].
Defined.

(** PUT with a body that is missing or falsy (unparsable, null,
    the empty object, the empty list, 0, false, the empty string) is
    answered 400 "No data provided" for every id, stored or not, and
    changes nothing: an empty object is refused, it is not a no-op
    update. *)
Lemma put_rejects_falsy_body (i : Z) (data : pyval) (d : db) :
  truthy data = false ->
  api_update_task i data d =
  (mk_response 400 (BError "No data provided"), d).
Proof.
  intros H. unfold api_update_task, catch_all, ret. rewrite H. reflexivity.
Qed.

(** ** The ids that POST returns *)

Lemma serve_seq (req : request) (d : db) :
  seq d <= seq (serve req d).2 /\
  Forall (fun i => seq d < i <= seq (serve req d).2)
    (posted_ids [(serve req d).1]).
Proof.
  unfold posted_ids. simpl. rewrite app_nil_r.
  destruct (serve_outcome req d)
    as [[E S]|[(m & E & S)|[(m & E & S)|[(l & Q & E & S)|[(i & r & Q & E & S)
       |[(data & r & Q & E & S & N)|[(i & data & r & Q & E & L & S)
       |(i & r & Q & Hf & E & S)]]]]]]];
    rewrite E, ?S; simpl; try (split; [lia|constructor]).
  unfold next_rowid in N. split; [lia|].
  constructor; [lia|constructor].
Qed.

Lemma posted_ids_cons (p : response) (ps : list response) :
  posted_ids (p :: ps) = (posted_ids [p] ++ posted_ids ps)%list.
Proof. unfold posted_ids. simpl. rewrite app_nil_r. reflexivity. Qed.

Lemma posted_ids_single_sorted (p : response) :
  StronglySorted Z.lt (posted_ids [p]).
Proof.
  unfold posted_ids. simpl. rewrite app_nil_r.
  destruct (code p =? 201); [|constructor].
  destruct (payload p); repeat constructor.
Qed.

Lemma posted_ids_increasing (reqs : list request) (d : db) :
  Forall (fun i => seq d < i <= seq (serve_all reqs d).2)
    (posted_ids (serve_all reqs d).1) /\
  StronglySorted Z.lt (posted_ids (serve_all reqs d).1) /\
  seq d <= seq (serve_all reqs d).2.
Proof.
  revert d. induction reqs as [|q reqs IH]; intros d.
  - repeat split; [constructor|constructor|simpl; lia].
  - pose proof (serve_seq q d) as [Hle Hq]. cbn [serve_all].
    destruct (serve q d) as [p d1]. cbn [fst snd] in Hle, Hq.
    specialize (IH d1). destruct (serve_all reqs d1) as [ps d2].
    cbn [fst snd] in *. destruct IH as (Hall & Hsorted & Hle').
    rewrite posted_ids_cons. repeat split; [| |lia].
    + apply Forall_app. split.
      * eapply Forall_impl; [exact Hq|]. simpl. intros x Hx. lia.
      * eapply Forall_impl; [exact Hall|]. simpl. intros x Hx. lia.
    + apply StronglySorted_app_2;
        [|apply posted_ids_single_sorted|exact Hsorted].
      intros x y Hx Hy. apply list_elem_of_In in Hx, Hy.
      rewrite List.Forall_forall in Hq, Hall.
      specialize (Hq x Hx). specialize (Hall y Hy). lia.
Qed.

(** X15.  Over any sequence of requests on the empty table, the ids of
    the records that the POST requests answered 201 returned are
    strictly increasing in the order of the requests: the API never
    hands out an id twice, also not the id of a task deleted in
    between. *)
Theorem posted_ids_never_reused (reqs : list request) :
  StronglySorted Z.lt (posted_ids (serve_all reqs empty_db).1).
Proof. apply (posted_ids_increasing reqs empty_db). Qed.
